(** * greedSimulations.py: a shallow embedding and its verified properties

    The development follows the layout of the source file: helper
    functions, the strategy classes, the game engine ([runSimulation]),
    the batch runner ([runSimulationBlock]), the aggregator
    ([testStrategies]) and the base strategy functions.

    Python features are modelled as follows.
    - [int] is [Z].  [float] is a type with the arithmetic the source uses
      on it, kept abstract: the theorems hold of any float arithmetic, and
      [binary64] instantiates it with the kernel's IEEE floats.  Python
      raises OverflowError when an [int] beyond the range of binary64 is
      converted; the conversions are total here.
    - An exception is a value [Raise e] of the type [result]; a loop that the
      source bounds by nothing ([while True], [while score < target]) is a
      structural recursion on a fuel argument that answers [OutOfFuel] when
      the fuel is spent, which is not a Python outcome.
    - The module [random] is a state-passing source [randint] over an
      abstract generator state.
    - A strategy object is an identity (a reference into a store of mutable
      attributes) together with its attributes that are never reassigned;
      passing the same object as both players is two equal references. *)

From Stdlib Require Import ZArith List String Bool Lia Floats Permutation.
Import ListNotations.
Local Open Scope Z_scope.

(* ================================================================== *)
(** * Python outcomes *)

Inductive exn : Type :=
| ZeroDivisionError
| IndexError
| TypeError
| KeyError.

Inductive result (A : Type) : Type :=
| Ok (a : A)
| Raise (e : exn)
| OutOfFuel.

Arguments Ok {A} a.
Arguments Raise {A} e.
Arguments OutOfFuel {A}.

Definition bind {A B : Type} (c : result A) (k : A -> result B) : result B :=
  match c with
  | Ok a => k a
  | Raise e => Raise e
  | OutOfFuel => OutOfFuel
  end.

Notation "x <- c ;; k" := (bind c (fun x => k))
  (at level 61, c at next level, right associativity).
Notation "' p <- c ;; k" := (bind c (fun x => let 'p := x in k))
  (at level 61, p pattern, c at next level, right associativity).

(** [l[i]] on a Python list: indices count from the end when negative. *)
Definition py_getitem {A : Type} (l : list A) (i : Z) : result A :=
  let len := Z.of_nat (List.length l) in
  let j := if i <? 0 then len + i else i in
  if (0 <=? j) && (j <? len)
  then match nth_error l (Z.to_nat j) with
       | Some a => Ok a
       | None => Raise IndexError
       end
  else Raise IndexError.

(** A constant parameter of a decision function: the source passes an
    integer ([untilValue], [agroAfter]) or a list of integers ([untilRoll]). *)
Inductive pyval : Type :=
| PInt (n : Z)
| PList (l : list Z).

(** A Python [dict] with string keys: the entries in insertion order, no
    key twice.  [dict_get] is [d[k]] and [dict_set] is [d[k] = v], which
    keeps the place of a key already present. *)
Definition dict (V : Type) : Type := list (string * V).

Fixpoint dict_get {V : Type} (d : dict V) (k : string) : result V :=
  match d with
  | [] => Raise KeyError
  | (k', v) :: d' => if String.eqb k' k then Ok v else dict_get d' k
  end.

Fixpoint dict_set {V : Type} (d : dict V) (k : string) (v : V) : dict V :=
  match d with
  | [] => [(k, v)]
  | (k', v') :: d' =>
      if String.eqb k' k then (k', v) :: d' else (k', v') :: dict_set d' k v
  end.

(* ================================================================== *)
(** * Helper functions *)

Definition sumList (sum_list : list Z) : Z :=
  fold_left (fun sum value => sum + value) sum_list 0.

(* ================================================================== *)
(** * The store of strategy objects *)

Definition ref := nat.
Bind Scope nat_scope with ref.

(** The two attributes of a strategy that the engine reassigns. *)
Record attrs : Type := { winning_score : Z; current_score : Z }.

Definition heap := ref -> attrs.

Definition set_winning_score (h : heap) (r : ref) (v : Z) : heap :=
  fun r' => if Nat.eqb r' r
            then {| winning_score := v; current_score := current_score (h r') |}
            else h r'.

Definition set_current_score (h : heap) (r : ref) (v : Z) : heap :=
  fun r' => if Nat.eqb r' r
            then {| winning_score := winning_score (h r'); current_score := v |}
            else h r'.

(* ================================================================== *)
(** * The program *)

(** The random source: [randint a b g] is [random.randint(a, b)] in the
    generator state [g], with the state that follows. *)
Class RandomSource (rng : Type) : Type := {
  randint : Z -> Z -> rng -> Z * rng
}.

(** Float arithmetic: [float_of_int] is the conversion Python applies to
    an [int] operand of a [float] operation, and [int_truediv a b] is
    [a / b] on two [int]s with [b] not zero. *)
Class FloatArith (float : Type) : Type := {
  float_of_int : Z -> float;
  fadd : float -> float -> float;
  fmul : float -> float -> float;
  fdiv : float -> float -> float;
  int_truediv : Z -> Z -> float
}.

Section Simulation.

Context {rng : Type} {R : RandomSource rng}.

Definition rollDie (g : rng) : Z * rng := randint 1 6 g.

(* ---------------------------------------------------------------- *)
(** ** The strategy classes *)

(** A base strategy function: winning score, current score, opponent
    score, current rolls and constant parameters to a decision. *)
Definition pyfun : Type :=
  Z -> Z -> Z -> list Z -> list pyval -> rng -> result (bool * rng).

Record decisionFunction : Type := {
  decision_function : pyfun;
  constant_parameters : list pyval
}.

Definition decisionFunction_getDecision (d : decisionFunction)
    (winning_score current_score opponent_score : Z) (current_rolls : list Z)
    (g : rng) : result (bool * rng) :=
  decision_function d winning_score current_score opponent_score
    current_rolls (constant_parameters d) g.

(** [id] is the object's identity; [name] and the decision function are
    set by [__init__] and never reassigned. *)
Record strategy : Type := {
  id : ref;
  name : string;
  strategy_decision_function : decisionFunction
}.

Definition strategy_getDecision (s : strategy) (h : heap)
    (opponent_score : Z) (current_rolls : list Z) (g : rng)
    : result (bool * rng) :=
  decisionFunction_getDecision (strategy_decision_function s)
    (winning_score (h (id s))) (current_score (h (id s)))
    opponent_score current_rolls g.

(* ---------------------------------------------------------------- *)
(** ** The game engine *)

(** One player's turn loop.  The source writes it twice, for
    [strategy_1] and for [strategy_2] with the roles exchanged; [me] is
    the player whose turn it is.  [rolled] is a ghost: the die values
    drawn so far in the turn, which the source does not keep. *)
Fixpoint turnLoop (fuel : nat) (me opp : strategy) (winning_score : Z)
    (h : heap) (current_moves rolled : list Z) (g : rng)
    : result (list Z * list Z * rng) :=
  if current_score (h (id me)) + sumList current_moves <? winning_score then
    match fuel with
    | O => OutOfFuel
    | S fuel' =>
        let (roll, g1) := rollDie g in
        if roll =? 1 then
          Ok ([], rolled ++ [roll], g1)
        else
          let current_moves := current_moves ++ [roll] in
          '(decision, g2) <-
            strategy_getDecision me h (current_score (h (id opp)))
              current_moves g1 ;;
          if negb decision then
            Ok (current_moves, rolled ++ [roll], g2)
          else
            turnLoop fuel' me opp winning_score h current_moves
              (rolled ++ [roll]) g2
    end
  else Ok (current_moves, rolled, g).

(** A turn: the loop from an empty list of moves, then the update of
    the player's score. *)
Definition takeTurn (fuel : nat) (me opp : strategy) (winning_score : Z)
    (h : heap) (g : rng) : result (heap * list Z * rng) :=
  '(current_moves, rolled, g') <-
    turnLoop fuel me opp winning_score h [] [] g ;;
  Ok (set_current_score h (id me)
        (current_score (h (id me)) + sumList current_moves),
      rolled, g').

(** The [while True] loop; [cycles] bounds its iterations and [fuel]
    those of each turn loop. *)
Fixpoint gameLoop (cycles fuel : nat) (strategy_1 strategy_2 : strategy)
    (winning_score : Z) (h : heap) (g : rng) : result (heap * rng) :=
  match cycles with
  | O => OutOfFuel
  | S cycles' =>
      '(h1, _, g1) <- takeTurn fuel strategy_1 strategy_2 winning_score h g ;;
      if current_score (h1 (id strategy_1)) >=? winning_score then
        Ok (h1, g1)
      else
        '(h2, _, g2) <-
          takeTurn fuel strategy_2 strategy_1 winning_score h1 g1 ;;
        if current_score (h2 (id strategy_2)) >=? winning_score then
          Ok (h2, g2)
        else
          gameLoop cycles' fuel strategy_1 strategy_2 winning_score h2 g2
  end.

(** The result is the source's list [[winner, margin]]. *)
Definition runSimulation (fuel : nat) (strategy_1 strategy_2 : strategy)
    (winning_score : Z) (h : heap) (g : rng)
    : result ((string * Z) * heap * rng) :=
  let h := set_winning_score h (id strategy_1) winning_score in
  let h := set_current_score h (id strategy_1) 0 in
  let h := set_winning_score h (id strategy_2) winning_score in
  let h := set_current_score h (id strategy_2) 0 in
  '(h, g) <- gameLoop fuel fuel strategy_1 strategy_2 winning_score h g ;;
  if current_score (h (id strategy_1)) >=? winning_score then
    Ok ((name strategy_1, 100 - current_score (h (id strategy_2))), h, g)
  else
    Ok ((name strategy_2, 100 - current_score (h (id strategy_1))), h, g).

(* ---------------------------------------------------------------- *)
(** ** Float arithmetic *)

Context {float : Type} {F : FloatArith float}.

(** [x * n], [x] a float and [n] an int. *)
Definition py_mul_float_int (x : float) (n : Z) : float :=
  fmul x (float_of_int n).

(** [x / n], [x] a float and [n] an int. *)
Definition py_div_float_int (x : float) (n : Z) : result float :=
  if n =? 0 then Raise ZeroDivisionError else Ok (fdiv x (float_of_int n)).

(** [a / b] on two ints. *)
Definition py_div_int_int (a b : Z) : result float :=
  if b =? 0 then Raise ZeroDivisionError else Ok (int_truediv a b).

(* ---------------------------------------------------------------- *)
(** ** The batch runner *)

Record game_settings : Type := {
  game_count : Z;
  gs_winning_score : Z;
  strategy_1 : string;
  strategy_2 : string
}.

(** The dictionary [runSimulationBlock] returns, and a match file holds. *)
Record batch : Type := {
  settings : game_settings;
  win_count : Z * Z;
  win_margins : list Z * list Z;
  average_margins : float * float
}.

(** [for i in range(0, games)]: [n] games are still to play. *)
Fixpoint playGames (n fuel : nat) (strategy_1 strategy_2 : strategy)
    (winning_score : Z) (results_list : list (string * Z)) (h : heap)
    (g : rng) : result (list (string * Z) * heap * rng) :=
  match n with
  | O => Ok (results_list, h, g)
  | S n' =>
      '(results, h', g') <-
        runSimulation fuel strategy_1 strategy_2 winning_score h g ;;
      playGames n' fuel strategy_1 strategy_2 winning_score
        (results_list ++ [results]) h' g'
  end.

(** The counters of the tally loop: wins and margins of both sides. *)
Record tally : Type := {
  strategy_1_wins : Z;
  strategy_2_wins : Z;
  strategy_1_margins : list Z;
  strategy_2_margins : list Z
}.

Definition tallyStep (strategy_1_name : string) (t : tally)
    (result : string * Z) : tally :=
  if String.eqb (fst result) strategy_1_name then
    {| strategy_1_wins := strategy_1_wins t + 1;
       strategy_2_wins := strategy_2_wins t;
       strategy_1_margins := strategy_1_margins t ++ [snd result];
       strategy_2_margins := strategy_2_margins t ++ [- snd result] |}
  else
    {| strategy_1_wins := strategy_1_wins t;
       strategy_2_wins := strategy_2_wins t + 1;
       strategy_1_margins := strategy_1_margins t ++ [- snd result];
       strategy_2_margins := strategy_2_margins t ++ [snd result] |}.

Definition tallyResults (strategy_1_name : string)
    (results_list : list (string * Z)) : tally :=
  fold_left (tallyStep strategy_1_name) results_list
    {| strategy_1_wins := 0; strategy_2_wins := 0;
       strategy_1_margins := []; strategy_2_margins := [] |}.

Definition runSimulationBlock (fuel : nat) (strategy_1 strategy_2 : strategy)
    (winning_score games : Z) (h : heap) (g : rng)
    : result (batch * heap * rng) :=
  '(results_list, h', g') <-
    playGames (Z.to_nat games) fuel strategy_1 strategy_2 winning_score
      [] h g ;;
  let t := tallyResults (name strategy_1) results_list in
  strategy_1_average <-
    py_div_int_int (sumList (strategy_1_margins t))
      (Z.of_nat (List.length (strategy_1_margins t))) ;;
  strategy_2_average <-
    py_div_int_int (sumList (strategy_2_margins t))
      (Z.of_nat (List.length (strategy_2_margins t))) ;;
  Ok ({| settings := {| game_count := games;
                        gs_winning_score := winning_score;
                        strategy_1 := name strategy_1;
                        strategy_2 := name strategy_2 |};
         win_count := (strategy_1_wins t, strategy_2_wins t);
         win_margins := (strategy_1_margins t, strategy_2_margins t);
         average_margins := (strategy_1_average, strategy_2_average) |},
      h', g').

(* ---------------------------------------------------------------- *)
(** ** The aggregator *)

(** [rate] is [None] until the last loop of [testStrategies] adds the
    key. *)
Record bucket : Type := { wins : Z; losses : Z; rate : option float }.

Record margin_stats : Type := { average : float; match_count : Z }.

Record rates : Type := { overall : bucket; first : bucket; second : bucket }.

Record aggregate : Type := {
  games_played : Z;
  average_margin : margin_stats;
  win_loss_rate : rates
}.

(** The first [try]/[except KeyError] of the loop body: the record of
    the match's first strategy. *)
Definition updateFirstStrategy (aggregate_results : dict aggregate)
    (current_results : batch) : result (dict aggregate) :=
  let key := strategy_1 (settings current_results) in
  let game_count := game_count (settings current_results) in
  match dict_get aggregate_results key with
  | Ok current_strategy =>
      let count := match_count (average_margin current_strategy) in
      share <- py_div_float_int (fst (average_margins current_results))
                 (10000 * count + 1) ;;
      Ok (dict_set aggregate_results key
        {| games_played := games_played current_strategy + game_count;
           average_margin :=
             {| average :=
                  fadd (py_mul_float_int
                          (average (average_margin current_strategy)) count)
                       share;
                match_count := count + 1 |};
           win_loss_rate :=
             {| overall :=
                  {| wins := wins (overall (win_loss_rate current_strategy))
                             + fst (win_count current_results);
                     losses :=
                       losses (overall (win_loss_rate current_strategy))
                       + (game_count - fst (win_count current_results));
                     rate := None |};
                first :=
                  {| wins := wins (first (win_loss_rate current_strategy))
                             + fst (win_count current_results);
                     losses :=
                       losses (first (win_loss_rate current_strategy))
                       + (game_count - fst (win_count current_results));
                     rate := None |};
                second :=
                  {| wins := wins (second (win_loss_rate current_strategy));
                     losses :=
                       losses (second (win_loss_rate current_strategy));
                     rate := None |} |} |})
  | Raise KeyError =>
      seed <- py_div_float_int (fst (average_margins current_results))
                10000 ;;
      Ok (dict_set aggregate_results key
        {| games_played := game_count;
           average_margin := {| average := seed; match_count := 1 |};
           win_loss_rate :=
             {| overall :=
                  {| wins := fst (win_count current_results);
                     losses := game_count - fst (win_count current_results);
                     rate := None |};
                first :=
                  {| wins := fst (win_count current_results);
                     losses := game_count - fst (win_count current_results);
                     rate := None |};
                second := {| wins := 0; losses := 0; rate := None |} |} |})
  | Raise e => Raise e
  | OutOfFuel => OutOfFuel
  end.

(** The second [try]/[except KeyError]: the record of the match's
    second strategy.  Every index into [win_count] and
    [average_margins] is [0] here too, as in the source. *)
Definition updateSecondStrategy (aggregate_results : dict aggregate)
    (current_results : batch) : result (dict aggregate) :=
  let key := strategy_2 (settings current_results) in
  let game_count := game_count (settings current_results) in
  match dict_get aggregate_results key with
  | Ok current_strategy =>
      let count := match_count (average_margin current_strategy) in
      share <- py_div_float_int (fst (average_margins current_results))
                 (10000 * count + 1) ;;
      Ok (dict_set aggregate_results key
        {| games_played := games_played current_strategy + game_count;
           average_margin :=
             {| average :=
                  fadd (py_mul_float_int
                          (average (average_margin current_strategy)) count)
                       share;
                match_count := count + 1 |};
           win_loss_rate :=
             {| overall :=
                  {| wins := wins (overall (win_loss_rate current_strategy))
                             + fst (win_count current_results);
                     losses :=
                       losses (overall (win_loss_rate current_strategy))
                       + (game_count - fst (win_count current_results));
                     rate := None |};
                first :=
                  {| wins := wins (first (win_loss_rate current_strategy));
                     losses :=
                       losses (first (win_loss_rate current_strategy));
                     rate := None |};
                second :=
                  {| wins := wins (second (win_loss_rate current_strategy))
                             + fst (win_count current_results);
                     losses :=
                       losses (second (win_loss_rate current_strategy))
                       + (game_count - fst (win_count current_results));
                     rate := None |} |} |})
  | Raise KeyError =>
      seed <- py_div_float_int (fst (average_margins current_results))
                10000 ;;
      Ok (dict_set aggregate_results key
        {| games_played := game_count;
           average_margin := {| average := seed; match_count := 1 |};
           win_loss_rate :=
             {| overall :=
                  {| wins := fst (win_count current_results);
                     losses := game_count - fst (win_count current_results);
                     rate := None |};
                first := {| wins := 0; losses := 0; rate := None |};
                second :=
                  {| wins := fst (win_count current_results);
                     losses := game_count - fst (win_count current_results);
                     rate := None |} |} |})
  | Raise e => Raise e
  | OutOfFuel => OutOfFuel
  end.

(** The body of [for filename in os.listdir(...)], on the record read
    from the file. *)
Definition aggregateMatch (aggregate_results : dict aggregate)
    (current_results : batch) : result (dict aggregate) :=
  aggregate_results <- updateFirstStrategy aggregate_results current_results ;;
  updateSecondStrategy aggregate_results current_results.

Fixpoint aggregateMatches (match_data : list batch)
    (aggregate_results : dict aggregate) : result (dict aggregate) :=
  match match_data with
  | [] => Ok aggregate_results
  | current_results :: match_data' =>
      aggregate_results <- aggregateMatch aggregate_results current_results ;;
      aggregateMatches match_data' aggregate_results
  end.

Definition addRate (b : bucket) : result bucket :=
  r <- py_div_int_int (wins b) (wins b + losses b) ;;
  Ok {| wins := wins b; losses := losses b; rate := Some r |}.

(** The body of [for strategy_name in aggregate_results]: the overall,
    the first and the second winrate, in this order. *)
Definition addWinrates (a : aggregate) : result aggregate :=
  overall' <- addRate (overall (win_loss_rate a)) ;;
  first' <- addRate (first (win_loss_rate a)) ;;
  second' <- addRate (second (win_loss_rate a)) ;;
  Ok {| games_played := games_played a;
        average_margin := average_margin a;
        win_loss_rate :=
          {| overall := overall'; first := first'; second := second' |} |}.

Fixpoint addAllWinrates (aggregate_results : dict aggregate)
    : result (dict aggregate) :=
  match aggregate_results with
  | [] => Ok []
  | (strategy_name, a) :: rest =>
      a' <- addWinrates a ;;
      rest' <- addAllWinrates rest ;;
      Ok ((strategy_name, a') :: rest')
  end.

(** [match_data] is what [readJSON] gives for the files of
    [./match_data], in the order of [os.listdir].  The parameters of the
    source are not read (the loop that plays the matches is commented
    out), and the result is the dictionary it returns. *)
Definition testStrategies (match_data : list batch)
    : result (dict aggregate) :=
  aggregate_results <- aggregateMatches match_data [] ;;
  addAllWinrates aggregate_results.

(* ---------------------------------------------------------------- *)
(** ** Base strategy functions *)

Definition untilValue : pyfun :=
  fun winning_score current_score opponent_score current_rolls
      constant_parameters g =>
    value <- py_getitem constant_parameters 0 ;;
    match value with
    | PInt value =>
        if sumList current_rolls >=? value then Ok (true, g)
        else Ok (false, g)
    | PList _ => Raise TypeError
    end.

Definition untilRoll : pyfun :=
  fun winning_score current_score opponent_score current_rolls
      constant_parameters g =>
    last_roll <- py_getitem current_rolls (-1) ;;
    values <- py_getitem constant_parameters 0 ;;
    match values with
    | PList values =>
        if existsb (Z.eqb last_roll) values then Ok (false, g)
        else Ok (true, g)
    | PInt _ => Raise TypeError
    end.

Definition randomDecision : pyfun :=
  fun winning_score current_score opponent_score current_rolls
      constant_parameters g =>
    let (i, g') := randint 0 1 g in
    decision <- py_getitem [true; false] i ;;
    Ok (decision, g').

Definition alwaysTrue : pyfun :=
  fun winning_score current_score opponent_score current_rolls
      constant_parameters g => Ok (true, g).

Definition alwaysFalse : pyfun :=
  fun winning_score current_score opponent_score current_rolls
      constant_parameters g => Ok (false, g).

Definition agroAfter : pyfun :=
  fun winning_score current_score opponent_score current_rolls
      constant_parameters g =>
    delta <- py_getitem constant_parameters 0 ;;
    match delta with
    | PInt delta =>
        if winning_score - current_score <=? delta then Ok (true, g)
        else randomDecision winning_score current_score opponent_score
               current_rolls constant_parameters g
    | PList _ => Raise TypeError
    end.

Definition agroAfterOpponent : pyfun :=
  fun winning_score current_score opponent_score current_rolls
      constant_parameters g =>
    delta <- py_getitem constant_parameters 0 ;;
    match delta with
    | PInt delta =>
        if winning_score - opponent_score <=? delta then Ok (true, g)
        else randomDecision winning_score current_score opponent_score
               current_rolls constant_parameters g
    | PList _ => Raise TypeError
    end.

Definition beatOpponent : pyfun :=
  fun winning_score current_score opponent_score current_rolls
      constant_parameters g =>
    if current_score <? opponent_score then Ok (true, g)
    else randomDecision winning_score current_score opponent_score
           current_rolls constant_parameters g.

(* ---------------------------------------------------------------- *)
(** ** Decision function, strategy definitions *)

(** [strategy(name, decisionFunction(f, parameters))]; [r] is the identity
    of the object created. *)
Definition new_strategy (r : ref) (name : string) (f : pyfun)
    (parameters : list pyval) : strategy :=
  {| id := r; name := name;
     strategy_decision_function :=
       {| decision_function := f; constant_parameters := parameters |} |}.

(** [__init__] sets both scores of a new strategy to [0]. *)
Definition initial_heap : heap :=
  fun _ => {| winning_score := 0; current_score := 0 |}.

Definition randomControl := new_strategy 0 "randomControl" randomDecision [].

Definition untilReach5 := new_strategy 1 "untilReach5" untilValue [PInt 5].
Definition untilReach8 := new_strategy 2 "untilReach8" untilValue [PInt 8].
Definition untilReach10 := new_strategy 3 "untilReach10" untilValue [PInt 10].
Definition untilReach15 := new_strategy 4 "untilReach15" untilValue [PInt 15].
Definition untilReach20 := new_strategy 5 "untilReach20" untilValue [PInt 20].
Definition untilReach25 := new_strategy 6 "untilReach25" untilValue [PInt 25].

Definition untilRoll3456 :=
  new_strategy 7 "untilRoll3456" untilRoll [PList [3; 4; 5; 6]].
Definition untilRoll456 :=
  new_strategy 8 "untilRoll456" untilRoll [PList [4; 5; 6]].
Definition untilRoll56 := new_strategy 9 "untilRoll56" untilRoll [PList [5; 6]].
Definition untilRoll6 := new_strategy 10 "untilRoll6" untilRoll [PList [6]].

Definition agroAfter6 := new_strategy 11 "agroAfter6" agroAfter [PInt 6].
Definition agroAfter10 := new_strategy 12 "agroAfter10" agroAfter [PInt 10].
Definition agroAfter15 := new_strategy 13 "agroAfter15" agroAfter [PInt 15].
Definition agroAfter20 := new_strategy 14 "agroAfter20" agroAfter [PInt 20].
Definition agroAfter25 := new_strategy 15 "agroAfter25" agroAfter [PInt 25].

Definition alwaysTrueStrategy := new_strategy 16 "alwaysTrue" alwaysTrue [].
Definition alwaysFalseStrategy := new_strategy 17 "alwaysFalse" alwaysFalse [].

Definition beatOpponentStrategy :=
  new_strategy 18 "beatOpponent" beatOpponent [].

Definition strategies : list strategy :=
  [ randomControl; untilReach5; untilReach8; untilReach10; untilReach15;
    untilReach20; untilReach25; untilRoll3456; untilRoll456; untilRoll56;
    untilRoll6; agroAfter6; agroAfter10; agroAfter15; agroAfter20;
    agroAfter25; alwaysTrueStrategy; alwaysFalseStrategy;
    beatOpponentStrategy ].

End Simulation.

Arguments pyfun : clear implicits.
Arguments decisionFunction : clear implicits.
Arguments strategy : clear implicits.
Arguments batch : clear implicits.
Arguments bucket : clear implicits.
Arguments margin_stats : clear implicits.
Arguments rates : clear implicits.
Arguments aggregate : clear implicits.

(* ================================================================== *)
(** * Instances to run the model *)

(** Python's floats: IEEE binary64 with rounding to nearest even. *)
Definition binary64_of_int (n : Z) : PrimFloat.float :=
  SF2Prim (binary_normalize prec emax n 0 false).

Definition exact (n : Z) : spec_float :=
  match n with
  | Z0 => S754_zero false
  | Zpos m => S754_finite false m 0
  | Zneg m => S754_finite true m 0
  end.

(** The quotient of the two integers, rounded once. *)
Definition binary64_truediv (a b : Z) : PrimFloat.float :=
  SF2Prim (SFdiv prec emax (exact a) (exact b)).

#[export] Instance binary64 : FloatArith PrimFloat.float := {
  float_of_int := binary64_of_int;
  fadd := PrimFloat.add;
  fmul := PrimFloat.mul;
  fdiv := PrimFloat.div;
  int_truediv := binary64_truediv
}.

(** A scripted random source: [randint a b] answers the next value of the
    script, brought into [a .. b], and [a] once the script is exhausted. *)
Definition scripted : Type := list Z.

Definition scripted_randint (a b : Z) (g : scripted) : Z * scripted :=
  match g with
  | [] => (a, [])
  | x :: g' => (Z.max a (Z.min b x), g')
  end.

#[export] Instance scripted_source : RandomSource scripted := {
  randint := scripted_randint
}.



(** The store after the four assignments that open [runSimulation]. *)
Definition game_start {rng : Type} (strategy_1 strategy_2 : strategy rng)
    (winning_score : Z) (h : heap) : heap :=
  set_current_score
    (set_winning_score
       (set_current_score
          (set_winning_score h (id strategy_1) winning_score)
          (id strategy_1) 0)
       (id strategy_2) winning_score)
    (id strategy_2) 0.


(** The contract of [random.randint]. *)
Definition in_range {rng : Type} {R : RandomSource rng} : Prop :=
  forall (a b : Z) (g : rng), a <= b -> a <= fst (randint a b g) <= b.





(** Two strategies that are the same object under the same name and
    decide alike on every list of rolls that is not empty. *)
Definition same_on_rolls {rng : Type} (s s' : strategy rng) : Prop :=
  id s = id s' /\ name s = name s'
  /\ forall (h : heap) (opponent_score : Z) (current_rolls : list Z) (g : rng),
       current_rolls <> [] ->
       strategy_getDecision s h opponent_score current_rolls g
       = strategy_getDecision s' h opponent_score current_rolls g.

(** The decision function of [s] raises IndexError on an empty list of
    rolls only. *)
Definition index_error_needs_no_roll {rng : Type} (s : strategy rng) : Prop :=
  forall (h : heap) (opponent_score : Z) (current_rolls : list Z) (g : rng),
    strategy_getDecision s h opponent_score current_rolls g = Raise IndexError ->
    current_rolls = [].

(** The games recorded in a bucket. *)
Definition games_in {float : Type} (b : bucket float) : Z := wins b + losses b.

Definition no_empty_bucket {float : Type} (a : aggregate float) : Prop :=
  games_in (overall (win_loss_rate a)) <> 0
  /\ games_in (first (win_loss_rate a)) <> 0
  /\ games_in (second (win_loss_rate a)) <> 0.

(** The rates as the specification words them: [rate = wins / (wins +
    losses)] in each of the three buckets, the rest of the record as it
    was. *)
Definition with_rate {float : Type} {F : FloatArith float} (b : bucket float)
    : bucket float :=
  {| wins := wins b; losses := losses b;
     rate := Some (int_truediv (wins b) (wins b + losses b)) |}.

Definition with_winrates {float : Type} {F : FloatArith float}
    (a : aggregate float) : aggregate float :=
  {| games_played := games_played a;
     average_margin := average_margin a;
     win_loss_rate :=
       {| overall := with_rate (overall (win_loss_rate a));
          first := with_rate (first (win_loss_rate a));
          second := with_rate (second (win_loss_rate a)) |} |}.

(** A match file: ten games that "alwaysTrue" played first against
    "alwaysFalse" and won seven times. *)
Definition example_match : batch PrimFloat.float :=
  {| settings := {| game_count := 10; gs_winning_score := 100;
                    strategy_1 := "alwaysTrue"; strategy_2 := "alwaysFalse" |};
     win_count := (7, 3);
     win_margins := ([40; 35; -20; 50; 10; -30; 60; 25; -15; 45],
                     [-40; -35; 20; -50; -10; 30; -60; -25; 15; -45]);
     average_margins := (20%float, (-20)%float) |}.

(** The return match: ten games that "alwaysFalse" played first against
    "alwaysTrue" and won four times. *)
Definition example_return_match : batch PrimFloat.float :=
  {| settings := {| game_count := 10; gs_winning_score := 100;
                    strategy_1 := "alwaysFalse"; strategy_2 := "alwaysTrue" |};
     win_count := (4, 6);
     win_margins := ([30; -20; -40; 10; -50; 20; -10; -60; 40; -30],
                     [-30; 20; 40; -10; 50; -20; 10; 60; -40; 30]);
     average_margins := ((-11)%float, 11%float) |}.

(** ** Notions for the further properties *)

Definition fmap_result {A B : Type} (f : A -> B) (c : result A) : result B :=
  match c with
  | Ok a => Ok (f a)
  | Raise e => Raise e
  | OutOfFuel => OutOfFuel
  end.

(** What a game shows to its caller: the list it returns, the attributes
    of the two players after it, and the generator. *)
Definition players_view {rng : Type} (strategy_1 strategy_2 : strategy rng)
    (x : string * Z * heap * rng) : string * Z * attrs * attrs * rng :=
  (fst (fst x), snd (fst x) (id strategy_1), snd (fst x) (id strategy_2),
   snd x).

(** The decision function of [s] answers on every list of rolls that is
    not empty, without an exception. *)
Definition answers_on_rolls {rng : Type} (s : strategy rng) : Prop :=
  forall (h : heap) (opponent_score : Z) (current_rolls : list Z) (g : rng),
    current_rolls <> [] ->
    exists decision g',
      strategy_getDecision s h opponent_score current_rolls g
      = Ok (decision, g').

(** The integer counters of an aggregate record. *)
Record counters : Type := {
  n_games : Z;
  n_matches : Z;
  n_overall_wins : Z;
  n_overall_losses : Z;
  n_first_wins : Z;
  n_first_losses : Z;
  n_second_wins : Z;
  n_second_losses : Z
}.

Definition counters_zero : counters :=
  {| n_games := 0; n_matches := 0; n_overall_wins := 0; n_overall_losses := 0;
     n_first_wins := 0; n_first_losses := 0;
     n_second_wins := 0; n_second_losses := 0 |}.

Definition counters_add (x y : counters) : counters :=
  {| n_games := n_games x + n_games y;
     n_matches := n_matches x + n_matches y;
     n_overall_wins := n_overall_wins x + n_overall_wins y;
     n_overall_losses := n_overall_losses x + n_overall_losses y;
     n_first_wins := n_first_wins x + n_first_wins y;
     n_first_losses := n_first_losses x + n_first_losses y;
     n_second_wins := n_second_wins x + n_second_wins y;
     n_second_losses := n_second_losses x + n_second_losses y |}.

Definition counters_of {float : Type} (a : aggregate float) : counters :=
  {| n_games := games_played a;
     n_matches := match_count (average_margin a);
     n_overall_wins := wins (overall (win_loss_rate a));
     n_overall_losses := losses (overall (win_loss_rate a));
     n_first_wins := wins (first (win_loss_rate a));
     n_first_losses := losses (first (win_loss_rate a));
     n_second_wins := wins (second (win_loss_rate a));
     n_second_losses := losses (second (win_loss_rate a)) |}.

(** The counters of a strategy in the dictionary, all zero for a strategy
    that has no record. *)
Definition lookup_counters {float : Type} (aggregate_results : dict (aggregate float))
    (strategy_name : string) : counters :=
  match dict_get aggregate_results strategy_name with
  | Ok a => counters_of a
  | _ => counters_zero
  end.

Definition has_key {V : Type} (d : dict V) (k : string) : bool :=
  match dict_get d k with
  | Ok _ => true
  | _ => false
  end.

(** What a match adds to the counters of its first strategy, and to
    those of its second: the code reads [win_count[0]] for both. *)
Definition as_first {float : Type} (b : batch float) : counters :=
  {| n_games := game_count (settings b);
     n_matches := 1;
     n_overall_wins := fst (win_count b);
     n_overall_losses := game_count (settings b) - fst (win_count b);
     n_first_wins := fst (win_count b);
     n_first_losses := game_count (settings b) - fst (win_count b);
     n_second_wins := 0;
     n_second_losses := 0 |}.

Definition as_second {float : Type} (b : batch float) : counters :=
  {| n_games := game_count (settings b);
     n_matches := 1;
     n_overall_wins := fst (win_count b);
     n_overall_losses := game_count (settings b) - fst (win_count b);
     n_first_wins := 0;
     n_first_losses := 0;
     n_second_wins := fst (win_count b);
     n_second_losses := game_count (settings b) - fst (win_count b) |}.

Definition contribution {float : Type} (strategy_name : string)
    (b : batch float) : counters :=
  counters_add
    (if String.eqb (strategy_1 (settings b)) strategy_name
     then as_first b else counters_zero)
    (if String.eqb (strategy_2 (settings b)) strategy_name
     then as_second b else counters_zero).

Fixpoint total_counters {float : Type} (strategy_name : string)
    (match_data : list (batch float)) : counters :=
  match match_data with
  | [] => counters_zero
  | b :: match_data' =>
      counters_add (contribution strategy_name b)
        (total_counters strategy_name match_data')
  end.

(** The strategy is the first, or the second, of some match. *)
Definition plays_first {float : Type} (strategy_name : string)
    (match_data : list (batch float)) : bool :=
  existsb (fun b => String.eqb (strategy_1 (settings b)) strategy_name)
    match_data.

Definition plays_second {float : Type} (strategy_name : string)
    (match_data : list (batch float)) : bool :=
  existsb (fun b => String.eqb (strategy_2 (settings b)) strategy_name)
    match_data.

(* ================================================================== *)
(** * Properties *)

(** ** Lists, dictionaries and the store *)

Lemma sumList_nil : sumList [] = 0.
Proof. reflexivity. Qed.

Lemma sumList_app (l : list Z) (x : Z) : sumList (l ++ [x]) = sumList l + x.
Proof. unfold sumList. rewrite fold_left_app. reflexivity. Qed.

Lemma current_score_set_current_score (h : heap) (r r' : ref) (v : Z) :
  current_score (set_current_score h r v r')
  = if Nat.eqb r' r then v else current_score (h r').
Proof. unfold set_current_score. destruct (Nat.eqb r' r); reflexivity. Qed.

Lemma current_score_set_winning_score (h : heap) (r r' : ref) (v : Z) :
  current_score (set_winning_score h r v r') = current_score (h r').
Proof. unfold set_winning_score. destruct (Nat.eqb r' r); reflexivity. Qed.

Lemma set_current_score_same (h : heap) (r : ref) (v : Z) :
  v = current_score (h r) -> forall r', set_current_score h r v r' = h r'.
Proof.
  intros Hv r'. unfold set_current_score.
  destruct (Nat.eqb_spec r' r) as [-> | _]; [ | reflexivity ].
  subst v. destruct (h r). reflexivity.
Qed.

Lemma bind_Ok {A B : Type} (c : result A) (k : A -> result B) (b : B) :
  bind c k = Ok b -> exists a, c = Ok a /\ k a = Ok b.
Proof.
  destruct c as [a | e | ]; simpl; intros H; try discriminate.
  exists a. split; [ reflexivity | exact H ].
Qed.

Lemma bind_Raise {A B : Type} (c : result A) (k : A -> result B) (e : exn) :
  bind c k = Raise e -> c = Raise e \/ exists a, c = Ok a /\ k a = Raise e.
Proof.
  destruct c as [a | e' | ]; simpl; intros H; try discriminate.
  - right. exists a. split; [ reflexivity | exact H ].
  - left. injection H as ->. reflexivity.
Qed.

(** [l[-1]] is defined on a list that is not empty. *)
Lemma py_getitem_last {A : Type} (l : list A) :
  l <> [] -> exists a, py_getitem l (-1) = Ok a.
Proof.
  intros Hl. unfold py_getitem.
  assert (Hlen : 1 <= Z.of_nat (List.length l)).
  { destruct l; [ contradiction | simpl List.length; lia ]. }
  replace (-1 <? 0) with true by reflexivity.
  assert (Hin : (0 <=? Z.of_nat (List.length l) + -1)
                && (Z.of_nat (List.length l) + -1 <? Z.of_nat (List.length l))
                = true).
  { apply andb_true_intro. split; [ apply Z.leb_le | apply Z.ltb_lt ]; lia. }
  rewrite Hin.
  destruct (nth_error l (Z.to_nat (Z.of_nat (List.length l) + -1))) as [a | ]
    eqn:Hnth; [ exists a; reflexivity | ].
  apply nth_error_None in Hnth. lia.
Qed.


Section Properties.

Context {rng : Type} {R : RandomSource rng}.

(** ** The turn loop *)

(** The unfolding of one iteration. *)
Lemma turnLoop_S (fuel : nat) (me opp : strategy rng) (winning_score : Z)
    (h : heap) (current_moves rolled : list Z) (g : rng) :
  turnLoop (S fuel) me opp winning_score h current_moves rolled g
  = if current_score (h (id me)) + sumList current_moves <? winning_score then
      if fst (rollDie g) =? 1 then
        Ok ([], rolled ++ [fst (rollDie g)], snd (rollDie g))
      else
        '(decision, g2) <-
          strategy_getDecision me h (current_score (h (id opp)))
            (current_moves ++ [fst (rollDie g)]) (snd (rollDie g)) ;;
        if negb decision then
          Ok (current_moves ++ [fst (rollDie g)],
              rolled ++ [fst (rollDie g)], g2)
        else
          turnLoop fuel me opp winning_score h
            (current_moves ++ [fst (rollDie g)])
            (rolled ++ [fst (rollDie g)]) g2
    else Ok (current_moves, rolled, g).
Proof. simpl. destruct (rollDie g). reflexivity. Qed.

Lemma turnLoop_done (fuel : nat) (me opp : strategy rng) (winning_score : Z)
    (h : heap) (current_moves rolled : list Z) (g : rng) :
  (current_score (h (id me)) + sumList current_moves <? winning_score) = false ->
  turnLoop fuel me opp winning_score h current_moves rolled g
  = Ok (current_moves, rolled, g).
Proof. intros H. destruct fuel; simpl; rewrite H; reflexivity. Qed.

(** A turn that rolled a 1 ends with no pending move. *)
Lemma turnLoop_bust (fuel : nat) (me opp : strategy rng) (winning_score : Z)
    (h : heap) :
  forall current_moves rolled g current_moves' rolled' g',
    turnLoop fuel me opp winning_score h current_moves rolled g
    = Ok (current_moves', rolled', g') ->
    ~ In 1 rolled -> In 1 rolled' -> current_moves' = [].
Proof.
  induction fuel as [ | fuel IH]; intros moves rolled g moves' rolled' g' Hrun Hno Hin.
  - simpl in Hrun.
    destruct (current_score (h (id me)) + sumList moves <? winning_score);
      [ discriminate | ].
    injection Hrun as <- <- <-. contradiction.
  - rewrite turnLoop_S in Hrun.
    destruct (current_score (h (id me)) + sumList moves <? winning_score);
      [ | injection Hrun as <- <- <-; contradiction ].
    destruct (Z.eqb_spec (fst (rollDie g)) 1) as [Hone | Hone].
    + injection Hrun as <- _ _. reflexivity.
    + assert (Hno' : ~ In 1 (rolled ++ [fst (rollDie g)])).
      { intros Hin'. apply in_app_or in Hin'. destruct Hin' as [Hin' | Hin'];
          [ contradiction | ].
        destruct Hin' as [Heq | []]. congruence. }
      apply bind_Ok in Hrun. destruct Hrun as [[decision g2] [_ Hrun]].
      destruct decision; simpl in Hrun.
      * exact (IH _ _ _ _ _ _ Hrun Hno' Hin).
      * injection Hrun as _ <- _. contradiction.
Qed.

(** C5. A turn in which a 1 is rolled ends with the whole pending sequence
    discarded (the turn loop leaves no move) and leaves the store as it
    found it: the score of the player, and of every other strategy, is
    what it was before the turn. *)
Theorem busted_turn_banks_nothing (fuel : nat) (me opp : strategy rng)
    (winning_score : Z) (h h' : heap) (g g' : rng) (rolled : list Z) :
  takeTurn fuel me opp winning_score h g = Ok (h', rolled, g') ->
  In 1 rolled ->
  turnLoop fuel me opp winning_score h [] [] g = Ok ([], rolled, g')
  /\ current_score (h' (id me)) = current_score (h (id me))
  /\ forall r, h' r = h r.
Proof.
  intros Hturn Hin. unfold takeTurn in Hturn.
  apply bind_Ok in Hturn. destruct Hturn as [[[moves rolled0] g0] [Hloop Hturn]].
  injection Hturn as <- <- <-.
  assert (Hmoves : moves = []).
  { apply (turnLoop_bust _ _ _ _ _ _ _ _ _ _ _ Hloop); [ intros [] | exact Hin ]. }
  subst moves.
  assert (Hsame : forall r,
    set_current_score h (id me) (current_score (h (id me)) + sumList []) r = h r).
  { apply set_current_score_same. rewrite sumList_nil. lia. }
  split; [ exact Hloop | ]. split; [ | exact Hsame ].
  rewrite Hsame. reflexivity.
Qed.

(** ** The game loop *)

Lemma takeTurn_Ok (fuel : nat) (me opp : strategy rng) (winning_score : Z)
    (h h' : heap) (g g' : rng) (rolled : list Z) :
  takeTurn fuel me opp winning_score h g = Ok (h', rolled, g') ->
  exists current_moves,
    turnLoop fuel me opp winning_score h [] [] g
    = Ok (current_moves, rolled, g')
    /\ h' = set_current_score h (id me)
              (current_score (h (id me)) + sumList current_moves).
Proof.
  unfold takeTurn. intros H. apply bind_Ok in H.
  destruct H as [[[moves rolled0] g0] [Hloop H]].
  injection H as <- <- <-. exists moves. split; [ exact Hloop | reflexivity ].
Qed.

(** What one iteration of [while True] does when the game goes on or ends. *)
Lemma gameLoop_S_Ok (cycles fuel : nat) (strategy_1 strategy_2 : strategy rng)
    (winning_score : Z) (h h' : heap) (g g' : rng) :
  gameLoop (S cycles) fuel strategy_1 strategy_2 winning_score h g
  = Ok (h', g') ->
  exists h1 rolled1 g1,
    takeTurn fuel strategy_1 strategy_2 winning_score h g = Ok (h1, rolled1, g1)
    /\ ((winning_score <= current_score (h1 (id strategy_1))
         /\ h' = h1 /\ g' = g1)
        \/ (current_score (h1 (id strategy_1)) < winning_score
            /\ exists h2 rolled2 g2,
                 takeTurn fuel strategy_2 strategy_1 winning_score h1 g1
                 = Ok (h2, rolled2, g2)
                 /\ ((winning_score <= current_score (h2 (id strategy_2))
                      /\ h' = h2 /\ g' = g2)
                     \/ (current_score (h2 (id strategy_2)) < winning_score
                         /\ gameLoop cycles fuel strategy_1 strategy_2
                              winning_score h2 g2 = Ok (h', g'))))).
Proof.
  simpl. intros H. apply bind_Ok in H.
  destruct H as [[[h1 rolled1] g1] [Hturn1 H]].
  exists h1, rolled1, g1. split; [ exact Hturn1 | ].
  destruct (Z.geb_spec (current_score (h1 (id strategy_1))) winning_score)
    as [Hwin1 | Hgo1].
  - injection H as <- <-. left. auto.
  - right. split; [ exact Hgo1 | ].
    apply bind_Ok in H. destruct H as [[[h2 rolled2] g2] [Hturn2 H]].
    exists h2, rolled2, g2. split; [ exact Hturn2 | ].
    destruct (Z.geb_spec (current_score (h2 (id strategy_2))) winning_score)
      as [Hwin2 | Hgo2].
    + injection H as <- <-. left. auto.
    + right. auto.
Qed.

(** The loop is left only when one of the two scores has reached the
    winning score. *)
Lemma gameLoop_exit (cycles fuel : nat) (strategy_1 strategy_2 : strategy rng)
    (winning_score : Z) :
  forall h g h' g',
    gameLoop cycles fuel strategy_1 strategy_2 winning_score h g = Ok (h', g') ->
    winning_score <= current_score (h' (id strategy_1))
    \/ winning_score <= current_score (h' (id strategy_2)).
Proof.
  induction cycles as [ | cycles IH]; intros h g h' g' H; [ discriminate | ].
  apply gameLoop_S_Ok in H.
  destruct H as (h1 & r1 & g1 & _ & [(Hwin & -> & _) | (_ & h2 & r2 & g2 & _ & H)]).
  - left. exact Hwin.
  - destruct H as [(Hwin & -> & _) | (_ & H)].
    + right. exact Hwin.
    + exact (IH _ _ _ _ H).
Qed.

(** With two distinct strategy objects, the second player is below the
    winning score whenever the first one wins. *)
Lemma gameLoop_loser (cycles fuel : nat) (strategy_1 strategy_2 : strategy rng)
    (winning_score : Z) :
  id strategy_1 <> id strategy_2 ->
  forall h g h' g',
    gameLoop cycles fuel strategy_1 strategy_2 winning_score h g = Ok (h', g') ->
    current_score (h (id strategy_2)) < winning_score ->
    winning_score <= current_score (h' (id strategy_1)) ->
    current_score (h' (id strategy_2)) < winning_score.
Proof.
  intros Hid.
  assert (H21 : Nat.eqb (id strategy_2) (id strategy_1) = false)
    by (apply Nat.eqb_neq; congruence).
  assert (H12 : Nat.eqb (id strategy_1) (id strategy_2) = false)
    by (apply Nat.eqb_neq; congruence).
  induction cycles as [ | cycles IH]; intros h g h' g' H Hlow Hwon;
    [ discriminate | ].
  apply gameLoop_S_Ok in H.
  destruct H as (h1 & r1 & g1 & Hturn1 & H).
  apply takeTurn_Ok in Hturn1. destruct Hturn1 as (moves1 & _ & ->).
  destruct H as [(_ & -> & _) | (Hgo1 & h2 & r2 & g2 & Hturn2 & H)].
  - rewrite current_score_set_current_score, H21. exact Hlow.
  - apply takeTurn_Ok in Hturn2. destruct Hturn2 as (moves2 & _ & ->).
    destruct H as [(_ & -> & _) | (Hgo2 & H)].
    + rewrite current_score_set_current_score, H12 in Hwon. lia.
    + exact (IH _ _ _ _ H Hgo2 Hwon).
Qed.

Lemma current_score_game_start (strategy_1 strategy_2 : strategy rng)
    (winning_score : Z) (h : heap) :
  current_score (game_start strategy_1 strategy_2 winning_score h (id strategy_1))
  = 0
  /\ current_score
       (game_start strategy_1 strategy_2 winning_score h (id strategy_2))
     = 0.
Proof.
  unfold game_start.
  rewrite !current_score_set_current_score, !current_score_set_winning_score,
    !current_score_set_current_score, !Nat.eqb_refl.
  split; [ | reflexivity ].
  destruct (Nat.eqb (id strategy_1) (id strategy_2)); reflexivity.
Qed.

Lemma runSimulation_Ok (fuel : nat) (strategy_1 strategy_2 : strategy rng)
    (winning_score : Z) (h h' : heap) (g g' : rng) (winner : string)
    (margin : Z) :
  runSimulation fuel strategy_1 strategy_2 winning_score h g
  = Ok ((winner, margin), h', g') ->
  gameLoop fuel fuel strategy_1 strategy_2 winning_score
    (game_start strategy_1 strategy_2 winning_score h) g = Ok (h', g')
  /\ ((winning_score <= current_score (h' (id strategy_1))
       /\ winner = name strategy_1
       /\ margin = 100 - current_score (h' (id strategy_2)))
      \/ (current_score (h' (id strategy_1)) < winning_score
          /\ winner = name strategy_2
          /\ margin = 100 - current_score (h' (id strategy_1)))).
Proof.
  unfold runSimulation. fold (game_start strategy_1 strategy_2 winning_score h).
  intros H. apply bind_Ok in H. destruct H as [[h1 g1] [Hloop H]].
  destruct (Z.geb_spec (current_score (h1 (id strategy_1))) winning_score)
    as [Hwin | Hlose]; injection H as <- <- <- <-;
    (split; [ exact Hloop | ]); [ left | right ]; auto.
Qed.

(** C4. A completed game returns the margin [100 - s], [s] the final score
    of the strategy that is not the winner, whatever the winning score:
    the winner has reached the winning score, and when the two players
    are distinct objects and the winning score is positive the other
    strategy has not. *)
Theorem margin_is_100_minus_loser_score (fuel : nat)
    (strategy_1 strategy_2 : strategy rng) (winning_score : Z) (h h' : heap)
    (g g' : rng) (winner : string) (margin : Z) :
  runSimulation fuel strategy_1 strategy_2 winning_score h g
  = Ok ((winner, margin), h', g') ->
  (winner = name strategy_1
   /\ winning_score <= current_score (h' (id strategy_1))
   /\ margin = 100 - current_score (h' (id strategy_2))
   /\ (0 < winning_score -> id strategy_1 <> id strategy_2 ->
       current_score (h' (id strategy_2)) < winning_score))
  \/ (winner = name strategy_2
      /\ winning_score <= current_score (h' (id strategy_2))
      /\ margin = 100 - current_score (h' (id strategy_1))
      /\ current_score (h' (id strategy_1)) < winning_score).
Proof.
  intros H. apply runSimulation_Ok in H. destruct H as [Hloop H].
  destruct H as [(Hwin & -> & ->) | (Hlose & -> & ->)].
  - left. repeat split; try assumption.
    intros Hpos Hid.
    apply (gameLoop_loser _ _ _ _ _ Hid _ _ _ _ Hloop); [ | exact Hwin ].
    rewrite (proj2 (current_score_game_start _ _ _ _)). exact Hpos.
  - right. repeat split; try assumption.
    destruct (gameLoop_exit _ _ _ _ _ _ _ _ _ Hloop) as [Hwin | Hwin];
      [ lia | exact Hwin ].
Qed.

(** ** Bounds on the scores, with a die that shows 1 to 6 *)

Section InRange.

Hypothesis randint_range : in_range.

Lemma rollDie_range (g : rng) : 1 <= fst (rollDie g) <= 6.
Proof. unfold rollDie. apply randint_range. lia. Qed.

(** The pending sum never goes below zero, and the score with the pending
    sum never goes beyond the winning score by more than 5. *)
Lemma turnLoop_bound (fuel : nat) (me opp : strategy rng) (winning_score : Z)
    (h : heap) :
  forall current_moves rolled g current_moves' rolled' g',
    turnLoop fuel me opp winning_score h current_moves rolled g
    = Ok (current_moves', rolled', g') ->
    0 <= sumList current_moves ->
    current_score (h (id me)) <= winning_score + 5 ->
    current_score (h (id me)) + sumList current_moves <= winning_score + 5 ->
    0 <= sumList current_moves'
    /\ current_score (h (id me)) + sumList current_moves' <= winning_score + 5.
Proof.
  induction fuel as [ | fuel IH];
    intros moves rolled g moves' rolled' g' Hrun Hpos Hscore Hsum.
  - simpl in Hrun.
    destruct (current_score (h (id me)) + sumList moves <? winning_score);
      [ discriminate | ].
    injection Hrun as <- _ _. auto.
  - rewrite turnLoop_S in Hrun.
    destruct (Z.ltb_spec (current_score (h (id me)) + sumList moves)
                winning_score) as [Hlt | _];
      [ | injection Hrun as <- _ _; auto ].
    pose proof (rollDie_range g) as Hroll.
    destruct (Z.eqb_spec (fst (rollDie g)) 1) as [_ | Hone].
    + injection Hrun as <- _ _. rewrite sumList_nil. lia.
    + apply bind_Ok in Hrun. destruct Hrun as [[decision g2] [_ Hrun]].
      assert (Hsum' : sumList (moves ++ [fst (rollDie g)])
                      = sumList moves + fst (rollDie g))
        by apply sumList_app.
      destruct decision; simpl in Hrun.
      * apply (IH _ _ _ _ _ _ Hrun); lia.
      * injection Hrun as <- _ _. lia.
Qed.

Lemma takeTurn_bound (fuel : nat) (me opp : strategy rng) (winning_score : Z)
    (h h' : heap) (g g' : rng) (rolled : list Z) :
  takeTurn fuel me opp winning_score h g = Ok (h', rolled, g') ->
  current_score (h (id me)) <= winning_score + 5 ->
  exists v,
    h' = set_current_score h (id me) v
    /\ current_score (h (id me)) <= v <= winning_score + 5.
Proof.
  intros Hturn Hscore. apply takeTurn_Ok in Hturn.
  destruct Hturn as (moves & Hloop & ->).
  exists (current_score (h (id me)) + sumList moves).
  split; [ reflexivity | ].
  apply turnLoop_bound in Hloop; rewrite ?sumList_nil; lia.
Qed.

(** Both scores are below the winning score when a cycle starts, and at
    most 5 beyond it when the loop is left. *)
Lemma gameLoop_bound (cycles fuel : nat) (strategy_1 strategy_2 : strategy rng)
    (winning_score : Z) :
  forall h g h' g',
    gameLoop cycles fuel strategy_1 strategy_2 winning_score h g = Ok (h', g') ->
    current_score (h (id strategy_1)) < winning_score ->
    current_score (h (id strategy_2)) < winning_score ->
    current_score (h' (id strategy_1)) <= winning_score + 5
    /\ current_score (h' (id strategy_2)) <= winning_score + 5.
Proof.
  induction cycles as [ | cycles IH]; intros h g h' g' H Hlow1 Hlow2;
    [ discriminate | ].
  apply gameLoop_S_Ok in H.
  destruct H as (h1 & r1 & g1 & Hturn1 & H).
  apply takeTurn_bound in Hturn1; [ | lia ].
  destruct Hturn1 as (v1 & -> & Hv1).
  rewrite current_score_set_current_score, Nat.eqb_refl in H.
  destruct H as [(_ & -> & _) | (Hgo1 & h2 & r2 & g2 & Hturn2 & H)].
  - rewrite !current_score_set_current_score, Nat.eqb_refl.
    destruct (Nat.eqb (id strategy_2) (id strategy_1)); lia.
  - assert (Hlow2' : current_score
                       (set_current_score h (id strategy_1) v1 (id strategy_2))
                     < winning_score).
    { rewrite current_score_set_current_score.
      destruct (Nat.eqb (id strategy_2) (id strategy_1)); lia. }
    apply takeTurn_bound in Hturn2; [ | lia ].
    destruct Hturn2 as (v2 & -> & Hv2).
    rewrite current_score_set_current_score, Nat.eqb_refl in H.
    destruct H as [(_ & -> & _) | (Hgo2 & H)].
    + rewrite !current_score_set_current_score, !Nat.eqb_refl.
      destruct (Nat.eqb (id strategy_1) (id strategy_2)); lia.
    + apply (IH _ _ _ _ H).
      * rewrite !current_score_set_current_score, Nat.eqb_refl.
        destruct (Nat.eqb (id strategy_1) (id strategy_2)); lia.
      * rewrite current_score_set_current_score, Nat.eqb_refl. lia.
Qed.

(** C10. With a winning score of at least 1 and a die that shows 1 to 6,
    the winner of a completed game has reached the winning score and is at
    most 5 beyond it. *)
Theorem winner_overshoot_at_most_5 (fuel : nat)
    (strategy_1 strategy_2 : strategy rng) (winning_score : Z) (h h' : heap)
    (g g' : rng) (winner : string) (margin : Z) :
  1 <= winning_score ->
  runSimulation fuel strategy_1 strategy_2 winning_score h g
  = Ok ((winner, margin), h', g') ->
  (winner = name strategy_1
   /\ winning_score <= current_score (h' (id strategy_1)) <= winning_score + 5)
  \/ (winner = name strategy_2
      /\ current_score (h' (id strategy_1)) < winning_score
      /\ winning_score <= current_score (h' (id strategy_2))
         <= winning_score + 5).
Proof.
  intros Hws H. apply runSimulation_Ok in H. destruct H as [Hloop H].
  pose proof (current_score_game_start strategy_1 strategy_2 winning_score h)
    as [Hstart1 Hstart2].
  pose proof (gameLoop_bound _ _ _ _ _ _ _ _ _ Hloop) as Hbound.
  destruct Hbound as [Hb1 Hb2]; [ lia | lia | ].
  destruct H as [(Hwin & -> & _) | (Hlose & -> & _)].
  - left. split; [ reflexivity | lia ].
  - right. split; [ reflexivity | ]. split; [ exact Hlose | ].
    destruct (gameLoop_exit _ _ _ _ _ _ _ _ _ Hloop); lia.
Qed.

(** ** Termination *)






End InRange.

(** ** The arguments of the decision calls *)


(** The engine asks for a decision on the moves of the turn with the roll
    just appended, so what a decision function does on the empty list
    never shows. *)
Lemma turnLoop_same (fuel : nat) (me me' opp opp' : strategy rng)
    (winning_score : Z) (h : heap) :
  same_on_rolls me me' -> id opp = id opp' ->
  forall current_moves rolled g,
    turnLoop fuel me opp winning_score h current_moves rolled g
    = turnLoop fuel me' opp' winning_score h current_moves rolled g.
Proof.
  intros (Hid & _ & Hdec) Hopp.
  induction fuel as [ | fuel IH]; intros moves rolled g.
  - simpl. rewrite Hid. reflexivity.
  - rewrite !turnLoop_S, <- Hid, <- Hopp.
    rewrite <- (Hdec h _ (moves ++ [fst (rollDie g)]))
      by (intros Hnil; apply app_eq_nil in Hnil; destruct Hnil; discriminate).
    destruct (current_score (h (id me)) + sumList moves <? winning_score);
      [ | reflexivity ].
    destruct (fst (rollDie g) =? 1); [ reflexivity | ].
    destruct (strategy_getDecision me h (current_score (h (id opp)))
                (moves ++ [fst (rollDie g)]) (snd (rollDie g)))
      as [[decision g2] | e | ]; simpl; try reflexivity.
    destruct decision; simpl; [ apply IH | reflexivity ].
Qed.

Lemma takeTurn_same (fuel : nat) (me me' opp opp' : strategy rng)
    (winning_score : Z) (h : heap) (g : rng) :
  same_on_rolls me me' -> id opp = id opp' ->
  takeTurn fuel me opp winning_score h g
  = takeTurn fuel me' opp' winning_score h g.
Proof.
  intros Hme Hopp. unfold takeTurn.
  rewrite (turnLoop_same _ _ _ _ _ _ _ Hme Hopp).
  destruct Hme as (<- & _ & _). reflexivity.
Qed.

Lemma gameLoop_same (fuel : nat) (s1 s1' s2 s2' : strategy rng)
    (winning_score : Z) :
  same_on_rolls s1 s1' -> same_on_rolls s2 s2' ->
  forall cycles h g,
    gameLoop cycles fuel s1 s2 winning_score h g
    = gameLoop cycles fuel s1' s2' winning_score h g.
Proof.
  intros H1 H2. induction cycles as [ | cycles IH]; intros h g;
    [ reflexivity | ].
  simpl.
  rewrite (takeTurn_same fuel s1 s1' s2 s2' _ _ _ H1 (proj1 H2)).
  destruct (takeTurn fuel s1' s2' winning_score h g)
    as [[[h1 r1] g1] | e | ]; simpl; try reflexivity.
  rewrite <- (proj1 H1).
  destruct (current_score (h1 (id s1)) >=? winning_score); [ reflexivity | ].
  rewrite (takeTurn_same fuel s2 s2' s1 s1' _ _ _ H2 (proj1 H1)).
  destruct (takeTurn fuel s2' s1' winning_score h1 g1)
    as [[[h2 r2] g2] | e | ]; simpl; try reflexivity.
  rewrite <- (proj1 H2).
  destruct (current_score (h2 (id s2)) >=? winning_score);
    [ reflexivity | apply IH ].
Qed.

Lemma runSimulation_same (fuel : nat) (s1 s1' s2 s2' : strategy rng)
    (winning_score : Z) (h : heap) (g : rng) :
  same_on_rolls s1 s1' -> same_on_rolls s2 s2' ->
  runSimulation fuel s1 s2 winning_score h g
  = runSimulation fuel s1' s2' winning_score h g.
Proof.
  intros H1 H2. unfold runSimulation.
  rewrite (gameLoop_same fuel _ _ _ _ winning_score H1 H2).
  destruct H1 as (<- & <- & _). destruct H2 as (<- & <- & _). reflexivity.
Qed.

Lemma turnLoop_no_IndexError (fuel : nat) (me opp : strategy rng)
    (winning_score : Z) (h : heap) :
  index_error_needs_no_roll me ->
  forall current_moves rolled g,
    turnLoop fuel me opp winning_score h current_moves rolled g
    <> Raise IndexError.
Proof.
  intros Hme. induction fuel as [ | fuel IH]; intros moves rolled g.
  - simpl. destruct (_ <? _); discriminate.
  - rewrite turnLoop_S.
    destruct (_ <? _); [ | discriminate ].
    destruct (_ =? 1); [ discriminate | ].
    intros H. apply bind_Raise in H.
    destruct H as [H | [[decision g2] [_ H]]].
    + apply Hme in H. apply app_eq_nil in H. destruct H. discriminate.
    + destruct decision; simpl in H; [ exact (IH _ _ _ H) | discriminate ].
Qed.

Lemma takeTurn_no_IndexError (fuel : nat) (me opp : strategy rng)
    (winning_score : Z) (h : heap) (g : rng) :
  index_error_needs_no_roll me ->
  takeTurn fuel me opp winning_score h g <> Raise IndexError.
Proof.
  intros Hme H. unfold takeTurn in H. apply bind_Raise in H.
  destruct H as [H | [[[moves rolled] g'] [_ H]]]; [ | discriminate ].
  exact (turnLoop_no_IndexError _ _ _ _ _ Hme _ _ _ H).
Qed.

Lemma gameLoop_no_IndexError (fuel : nat) (s1 s2 : strategy rng)
    (winning_score : Z) :
  index_error_needs_no_roll s1 -> index_error_needs_no_roll s2 ->
  forall cycles h g,
    gameLoop cycles fuel s1 s2 winning_score h g <> Raise IndexError.
Proof.
  intros H1 H2. induction cycles as [ | cycles IH]; intros h g;
    [ discriminate | ].
  simpl. intros H. apply bind_Raise in H.
  destruct H as [H | [[[h1 r1] g1] [_ H]]];
    [ exact (takeTurn_no_IndexError _ _ _ _ _ _ H1 H) | ].
  destruct (_ >=? _); [ discriminate | ].
  apply bind_Raise in H.
  destruct H as [H | [[[h2 r2] g2] [_ H]]];
    [ exact (takeTurn_no_IndexError _ _ _ _ _ _ H2 H) | ].
  destruct (_ >=? _); [ discriminate | exact (IH _ _ H) ].
Qed.

Lemma untilRoll_index_error (r : ref) (n : string) (values : list Z) :
  index_error_needs_no_roll
    (new_strategy (rng:=rng) r n untilRoll [PList values]).
Proof.
  intros h opponent_score rolls g H.
  destruct rolls as [ | x rolls]; [ reflexivity | exfalso ].
  destruct (py_getitem_last (x :: rolls)) as [a Ha]; [ discriminate | ].
  unfold strategy_getDecision, decisionFunction_getDecision, new_strategy,
    untilRoll in H.
  cbn [decision_function constant_parameters strategy_decision_function] in H.
  rewrite Ha in H. cbn [bind] in H.
  change (py_getitem [PList values] 0) with (Ok (PList values)) in H.
  cbn [bind] in H.
  destruct (existsb (Z.eqb a) values); discriminate.
Qed.

(** C9. Every decision call of a game sees at least one roll: a game is
    the same whatever the two decision functions do on the empty list,
    and an IndexError that a decision function raises on the empty list
    only (as [untilRoll] does, by its access to the last roll) never comes
    out of [runSimulation]. *)
Theorem decisions_only_after_a_roll (fuel : nat)
    (strategy_1 strategy_2 : strategy rng) (winning_score : Z) (h : heap)
    (g : rng) :
  (forall strategy_1' strategy_2',
      same_on_rolls strategy_1 strategy_1' ->
      same_on_rolls strategy_2 strategy_2' ->
      runSimulation fuel strategy_1 strategy_2 winning_score h g
      = runSimulation fuel strategy_1' strategy_2' winning_score h g)
  /\ (index_error_needs_no_roll strategy_1 ->
      index_error_needs_no_roll strategy_2 ->
      runSimulation fuel strategy_1 strategy_2 winning_score h g
      <> Raise IndexError)
  /\ (forall r n values,
        index_error_needs_no_roll
    (new_strategy (rng:=rng) r n untilRoll [PList values])).
Proof.
  split; [ | split ].
  - intros s1' s2' H1 H2. apply runSimulation_same; assumption.
  - intros H1 H2 H. unfold runSimulation in H. apply bind_Raise in H.
    destruct H as [H | [[h' g'] [_ H]]].
    + exact (gameLoop_no_IndexError _ _ _ _ H1 H2 _ _ _ H).
    + destruct (_ >=? _); discriminate.
  - intros r n values. apply untilRoll_index_error.
Qed.

End Properties.

(** ** The batch runner *)

(** The margin a game adds to the list of the first side, and to the list
    of the second. *)
Lemma tally_fold (strategy_1_name : string) (results_list : list (string * Z)) :
  forall t : tally,
    strategy_1_wins (fold_left (tallyStep strategy_1_name) results_list t)
    + strategy_2_wins (fold_left (tallyStep strategy_1_name) results_list t)
    = strategy_1_wins t + strategy_2_wins t
      + Z.of_nat (List.length results_list)
    /\ strategy_1_margins (fold_left (tallyStep strategy_1_name) results_list t)
       = strategy_1_margins t
         ++ map (fun result : string * Z =>
                   if String.eqb (fst result) strategy_1_name
                   then snd result else - snd result) results_list
    /\ strategy_2_margins (fold_left (tallyStep strategy_1_name) results_list t)
       = strategy_2_margins t
         ++ map (fun result : string * Z =>
                   if String.eqb (fst result) strategy_1_name
                   then - snd result else snd result) results_list.
Proof.
  induction results_list as [ | result results_list IH]; intros t.
  - simpl. rewrite !app_nil_r. repeat split. lia.
  - cbn [fold_left map List.length].
    destruct (IH (tallyStep strategy_1_name t result)) as (Hw & Hm1 & Hm2).
    rewrite Hw, Hm1, Hm2. unfold tallyStep.
    destruct (String.eqb (fst result) strategy_1_name); simpl;
      rewrite <- !app_assoc; repeat split; lia.
Qed.

Lemma py_div_int_int_Ok {float : Type} {F : FloatArith float} (a b : Z)
    (x : float) :
  py_div_int_int a b = Ok x -> b <> 0.
Proof.
  unfold py_div_int_int. destruct (Z.eqb_spec b 0); [ discriminate | auto ].
Qed.

Section BatchProperties.

Context {rng : Type} {R : RandomSource rng}.
Context {float : Type} {F : FloatArith float}.

Lemma playGames_length (fuel : nat) (strategy_1 strategy_2 : strategy rng)
    (winning_score : Z) :
  forall n results_list h g results_list' h' g',
    playGames n fuel strategy_1 strategy_2 winning_score results_list h g
    = Ok (results_list', h', g') ->
    List.length results_list' = (List.length results_list + n)%nat.
Proof.
  induction n as [ | n IH]; intros acc h g acc' h' g' H; simpl in H.
  - injection H as <- _ _. lia.
  - apply bind_Ok in H. destruct H as [[[results h1] g1] [_ H]].
    apply IH in H. rewrite H, length_app. simpl. lia.
Qed.

(** C6. In a batch that [runSimulationBlock] produces, the two win counts
    add up to the number of games, both margin lists have one entry for
    each game, and the game of rank [i] put its margin in the list of one
    side (the first when the winner bears the name of [strategy_1], the
    second otherwise) and the opposite of its margin in the other list. *)
Theorem batch_win_counts_and_margins (fuel : nat)
    (strategy_1 strategy_2 : strategy rng) (winning_score games : Z)
    (h h' : heap) (g g' : rng) (b : batch float) :
  runSimulationBlock fuel strategy_1 strategy_2 winning_score games h g
  = Ok (b, h', g') ->
  game_count (settings b) = games
  /\ fst (win_count b) + snd (win_count b) = games
  /\ Z.of_nat (List.length (fst (win_margins b))) = games
  /\ Z.of_nat (List.length (snd (win_margins b))) = games
  /\ exists results_list,
       playGames (Z.to_nat games) fuel strategy_1 strategy_2 winning_score
         [] h g = Ok (results_list, h', g')
       /\ Z.of_nat (List.length results_list) = games
       /\ forall i winner margin,
            nth_error results_list i = Some (winner, margin) ->
            (winner = name strategy_1
             /\ nth_error (fst (win_margins b)) i = Some margin
             /\ nth_error (snd (win_margins b)) i = Some (- margin))
            \/ (winner <> name strategy_1
                /\ nth_error (fst (win_margins b)) i = Some (- margin)
                /\ nth_error (snd (win_margins b)) i = Some margin).
Proof.
  unfold runSimulationBlock. intros H.
  apply bind_Ok in H. destruct H as [[[results_list h1] g1] [Hplay H]].
  apply bind_Ok in H. destruct H as [average_1 [Hdiv1 H]].
  apply bind_Ok in H. destruct H as [average_2 [_ H]].
  injection H as <- <- <-. cbn [settings game_count win_count win_margins fst snd].
  destruct (tally_fold (name strategy_1) results_list
              {| strategy_1_wins := 0; strategy_2_wins := 0;
                 strategy_1_margins := []; strategy_2_margins := [] |})
    as (Hw & Hm1 & Hm2).
  fold (tallyResults (name strategy_1) results_list) in Hw, Hm1, Hm2.
  cbn [strategy_1_wins strategy_2_wins strategy_1_margins strategy_2_margins
       app] in Hw, Hm1, Hm2.
  apply py_div_int_int_Ok in Hdiv1.
  pose proof (playGames_length _ _ _ _ _ _ _ _ _ _ _ Hplay) as Hlen.
  simpl in Hlen. rewrite Hm1, length_map in Hdiv1.
  assert (Hgames : Z.of_nat (List.length results_list) = games) by lia.
  rewrite Hm1, Hm2, !length_map.
  repeat split; try lia.
  exists results_list. repeat split; try assumption.
  intros i winner margin Hnth. rewrite !nth_error_map, Hnth. simpl.
  destruct (String.eqb_spec winner (name strategy_1)) as [-> | Hother];
    [ left | right ]; auto.
Qed.

End BatchProperties.

(** ** The aggregator *)

Lemma dict_get_set_same {V : Type} (d : dict V) (k : string) (v : V) :
  dict_get (dict_set d k v) k = Ok v.
Proof.
  induction d as [ | [k' v'] d IH]; simpl.
  - rewrite String.eqb_refl. reflexivity.
  - destruct (String.eqb k' k) eqn:Hk; simpl; rewrite Hk;
      [ reflexivity | exact IH ].
Qed.

Lemma dict_get_set_other {V : Type} (d : dict V) (k k' : string) (v : V) :
  k' <> k -> dict_get (dict_set d k v) k' = dict_get d k'.
Proof.
  intros Hk. induction d as [ | [k0 v0] d IH]; simpl.
  - destruct (String.eqb_spec k k'); [ congruence | reflexivity ].
  - destruct (String.eqb_spec k0 k) as [-> | _]; simpl.
    + destruct (String.eqb_spec k k'); [ congruence | reflexivity ].
    + destruct (String.eqb k0 k'); [ reflexivity | exact IH ].
Qed.

(** A key is in the dictionary, or the access raises KeyError. *)
Lemma dict_get_cases {V : Type} (d : dict V) (k : string) :
  (exists v, dict_get d k = Ok v) \/ dict_get d k = Raise KeyError.
Proof.
  induction d as [ | [k' v'] d IH]; simpl; [ right; reflexivity | ].
  destruct (String.eqb k' k); [ left; exists v'; reflexivity | exact IH ].
Qed.

Section AggregatorProperties.

Context {float : Type} {F : FloatArith float}.

(** The divisor [10000 * count + 1] is never zero. *)
Lemma py_div_float_int_share (x : float) (count : Z) :
  py_div_float_int x (10000 * count + 1)
  = Ok (fdiv x (float_of_int (10000 * count + 1))).
Proof.
  unfold py_div_float_int.
  destruct (Z.eqb_spec (10000 * count + 1) 0); [ lia | reflexivity ].
Qed.

Lemma updateFirstStrategy_Ok (aggregate_results : dict (aggregate float))
    (current_results : batch float) :
  exists updated,
    updateFirstStrategy aggregate_results current_results
    = Ok (dict_set aggregate_results (strategy_1 (settings current_results))
            updated)
    /\ match dict_get aggregate_results
               (strategy_1 (settings current_results)) with
       | Ok current_strategy =>
           average (average_margin updated)
           = fadd (fmul (average (average_margin current_strategy))
                     (float_of_int
                        (match_count (average_margin current_strategy))))
                  (fdiv (fst (average_margins current_results))
                     (float_of_int
                        (10000 * match_count (average_margin current_strategy)
                         + 1)))
           /\ match_count (average_margin updated)
              = match_count (average_margin current_strategy) + 1
       | _ =>
           average (average_margin updated)
           = fdiv (fst (average_margins current_results)) (float_of_int 10000)
           /\ match_count (average_margin updated) = 1
       end.
Proof.
  unfold updateFirstStrategy.
  destruct (dict_get_cases aggregate_results
              (strategy_1 (settings current_results))) as [[cur ->] | ->].
  - rewrite py_div_float_int_share. cbn [bind].
    eexists. split; [ reflexivity | ]. split; reflexivity.
  - cbn [py_div_float_int Z.eqb bind].
    eexists. split; [ reflexivity | ]. split; reflexivity.
Qed.

(** What the second [try] does: the record of [strategy_2] moves by the
    counts and the average margin of the first side, [win_count[0]] and
    [average_margins[0]]; its [first] bucket is kept. *)
Lemma updateSecondStrategy_Ok (aggregate_results : dict (aggregate float))
    (current_results : batch float) :
  exists updated,
    updateSecondStrategy aggregate_results current_results
    = Ok (dict_set aggregate_results (strategy_2 (settings current_results))
            updated)
    /\ match dict_get aggregate_results
               (strategy_2 (settings current_results)) with
       | Ok current_strategy =>
           average (average_margin updated)
           = fadd (fmul (average (average_margin current_strategy))
                     (float_of_int
                        (match_count (average_margin current_strategy))))
                  (fdiv (fst (average_margins current_results))
                     (float_of_int
                        (10000 * match_count (average_margin current_strategy)
                         + 1)))
           /\ wins (overall (win_loss_rate updated))
              = wins (overall (win_loss_rate current_strategy))
                + fst (win_count current_results)
           /\ losses (overall (win_loss_rate updated))
              = losses (overall (win_loss_rate current_strategy))
                + (game_count (settings current_results)
                   - fst (win_count current_results))
           /\ wins (second (win_loss_rate updated))
              = wins (second (win_loss_rate current_strategy))
                + fst (win_count current_results)
           /\ losses (second (win_loss_rate updated))
              = losses (second (win_loss_rate current_strategy))
                + (game_count (settings current_results)
                   - fst (win_count current_results))
           /\ wins (first (win_loss_rate updated))
              = wins (first (win_loss_rate current_strategy))
           /\ losses (first (win_loss_rate updated))
              = losses (first (win_loss_rate current_strategy))
       | _ =>
           average (average_margin updated)
           = fdiv (fst (average_margins current_results)) (float_of_int 10000)
           /\ wins (overall (win_loss_rate updated))
              = fst (win_count current_results)
           /\ losses (overall (win_loss_rate updated))
              = game_count (settings current_results)
                - fst (win_count current_results)
           /\ wins (second (win_loss_rate updated))
              = fst (win_count current_results)
           /\ losses (second (win_loss_rate updated))
              = game_count (settings current_results)
                - fst (win_count current_results)
           /\ wins (first (win_loss_rate updated)) = 0
           /\ losses (first (win_loss_rate updated)) = 0
       end.
Proof.
  unfold updateSecondStrategy.
  destruct (dict_get_cases aggregate_results
              (strategy_2 (settings current_results))) as [[cur ->] | ->].
  - rewrite py_div_float_int_share. cbn [bind].
    eexists. split; [ reflexivity | ]. repeat split; reflexivity.
  - cbn [py_div_float_int Z.eqb bind].
    eexists. split; [ reflexivity | ]. repeat split; reflexivity.
Qed.

(** C1. The first [try] of a fold always succeeds, and the record it
    stores for the first strategy of the match has the average
    [old * count + margin / (10000 * count + 1)] and the match count
    [count + 1] when the strategy had a record, and the average
    [margin / 10000] and the match count 1 when it had none, [margin] being
    [average_margins[0]], the average margin of the first side.  When the
    second strategy of the match is another one, this is the record of the
    first strategy after the whole fold of the match. *)
Theorem first_strategy_average_update
    (aggregate_results : dict (aggregate float))
    (current_results : batch float) :
  exists aggregate_results' updated,
    updateFirstStrategy aggregate_results current_results
    = Ok aggregate_results'
    /\ dict_get aggregate_results' (strategy_1 (settings current_results))
       = Ok updated
    /\ match dict_get aggregate_results
               (strategy_1 (settings current_results)) with
       | Ok current_strategy =>
           average (average_margin updated)
           = fadd (fmul (average (average_margin current_strategy))
                     (float_of_int
                        (match_count (average_margin current_strategy))))
                  (fdiv (fst (average_margins current_results))
                     (float_of_int
                        (10000 * match_count (average_margin current_strategy)
                         + 1)))
           /\ match_count (average_margin updated)
              = match_count (average_margin current_strategy) + 1
       | _ =>
           average (average_margin updated)
           = fdiv (fst (average_margins current_results)) (float_of_int 10000)
           /\ match_count (average_margin updated) = 1
       end
    /\ (strategy_2 (settings current_results)
        <> strategy_1 (settings current_results) ->
        exists final,
          aggregateMatch aggregate_results current_results = Ok final
          /\ dict_get final (strategy_1 (settings current_results))
             = Ok updated).
Proof.
  destruct (updateFirstStrategy_Ok aggregate_results current_results)
    as (updated & Hfirst & Hvalues).
  eexists. exists updated. split; [ exact Hfirst | ].
  split; [ apply dict_get_set_same | ]. split; [ exact Hvalues | ].
  intros Hother. unfold aggregateMatch. rewrite Hfirst. cbn [bind].
  destruct (updateSecondStrategy_Ok
              (dict_set aggregate_results
                 (strategy_1 (settings current_results)) updated)
              current_results) as (updated2 & -> & _).
  eexists. split; [ reflexivity | ].
  rewrite dict_get_set_other by congruence. apply dict_get_set_same.
Qed.

Lemma addRate_cases (b : bucket float) :
  (games_in b <> 0 /\ addRate b = Ok (with_rate b))
  \/ (games_in b = 0 /\ addRate b = Raise ZeroDivisionError).
Proof.
  unfold addRate, py_div_int_int, games_in, with_rate.
  destruct (Z.eqb_spec (wins b + losses b) 0) as [Hzero | Hgames];
    [ right | left ]; split; auto.
Qed.

Lemma addWinrates_cases (a : aggregate float) :
  (no_empty_bucket a /\ addWinrates a = Ok (with_winrates a))
  \/ (~ no_empty_bucket a /\ addWinrates a = Raise ZeroDivisionError).
Proof.
  unfold addWinrates, no_empty_bucket, with_winrates.
  destruct (addRate_cases (overall (win_loss_rate a))) as [[H1 ->] | [H1 ->]];
    cbn [bind]; [ | right; split; [ tauto | reflexivity ] ].
  destruct (addRate_cases (first (win_loss_rate a))) as [[H2 ->] | [H2 ->]];
    cbn [bind]; [ | right; split; [ tauto | reflexivity ] ].
  destruct (addRate_cases (second (win_loss_rate a))) as [[H3 ->] | [H3 ->]];
    cbn [bind]; [ | right; split; [ tauto | reflexivity ] ].
  left. split; [ tauto | reflexivity ].
Qed.

Lemma addAllWinrates_cases (aggregate_results : dict (aggregate float)) :
  (Forall (fun entry => no_empty_bucket (snd entry)) aggregate_results
   /\ addAllWinrates aggregate_results
      = Ok (map (fun entry => (fst entry, with_winrates (snd entry)))
              aggregate_results))
  \/ (Exists (fun entry => ~ no_empty_bucket (snd entry)) aggregate_results
      /\ addAllWinrates aggregate_results = Raise ZeroDivisionError).
Proof.
  induction aggregate_results as [ | [strategy_name a] rest IH]; simpl.
  - left. split; [ constructor | reflexivity ].
  - destruct (addWinrates_cases a) as [[Ha ->] | [Ha ->]]; cbn [bind].
    + destruct IH as [[Hrest ->] | [Hrest ->]]; cbn [bind].
      * left. split; [ constructor; assumption | reflexivity ].
      * right. split; [ apply Exists_cons_tl; exact Hrest | reflexivity ].
    + right. split; [ apply Exists_cons_hd; exact Ha | reflexivity ].
Qed.

Lemma aggregateMatches_Ok (match_data : list (batch float)) :
  forall aggregate_results : dict (aggregate float),
    exists aggregate_results',
      aggregateMatches match_data aggregate_results = Ok aggregate_results'.
Proof.
  induction match_data as [ | current_results match_data IH];
    intros aggregate_results; simpl.
  - exists aggregate_results. reflexivity.
  - unfold aggregateMatch.
    destruct (updateFirstStrategy_Ok aggregate_results current_results)
      as (updated1 & -> & _). cbn [bind].
    destruct (updateSecondStrategy_Ok
                (dict_set aggregate_results
                   (strategy_1 (settings current_results)) updated1)
                current_results) as (updated2 & -> & _). cbn [bind].
    apply IH.
Qed.

(** C7. The fold of the matches always gives a dictionary, and the
    winrates are added to it afterwards.  When no strategy has an empty
    bucket, every bucket gets [rate = wins / (wins + losses)]; when some
    strategy has a bucket with [wins + losses = 0], [testStrategies] raises
    ZeroDivisionError and gives no rate at all. *)
Theorem winrates_or_ZeroDivisionError (match_data : list (batch float)) :
  exists aggregate_results,
    aggregateMatches match_data [] = Ok aggregate_results
    /\ (Forall (fun entry => no_empty_bucket (snd entry)) aggregate_results ->
        testStrategies match_data
        = Ok (map (fun entry => (fst entry, with_winrates (snd entry)))
                aggregate_results))
    /\ (Exists (fun entry => ~ no_empty_bucket (snd entry)) aggregate_results ->
        testStrategies match_data = Raise ZeroDivisionError).
Proof.
  destruct (aggregateMatches_Ok match_data []) as [aggregate_results Hfold].
  exists aggregate_results. split; [ exact Hfold | ].
  unfold testStrategies. rewrite Hfold. cbn [bind]. split.
  - intros Hall.
    destruct (addAllWinrates_cases aggregate_results) as [[_ H] | [Hex _]];
      [ exact H | ].
    apply Exists_exists in Hex. destruct Hex as (entry & Hin & Hbad).
    rewrite Forall_forall in Hall. elim Hbad. exact (Hall entry Hin).
  - intros Hex.
    destruct (addAllWinrates_cases aggregate_results) as [[Hall _] | [_ H]];
      [ | exact H ].
    apply Exists_exists in Hex. destruct Hex as (entry & Hin & Hbad).
    rewrite Forall_forall in Hall. elim Hbad. exact (Hall entry Hin).
Qed.

End AggregatorProperties.

(* ================================================================== *)
(** * The properties on runs of the model *)

(** ** The two random sources *)

Lemma scripted_in_range : in_range (R := scripted_source).
Proof.
  intros a b g Hab. destruct g as [ | x g]; simpl; lia.
Qed.





(** ** The game engine *)

(** A turn of "alwaysTrue" that holds 42 points and rolls 3, 4 and 1. *)
Lemma busted_turn_banks_nothing_witness :
  exists h' : heap,
    takeTurn (R := scripted_source) 10 alwaysTrueStrategy alwaysFalseStrategy
      100 (set_current_score initial_heap 16 42) [3; 4; 1; 5]
    = Ok (h', [3; 4; 1], [5])
    /\ In 1 [3; 4; 1]
    /\ turnLoop (R := scripted_source) 10 alwaysTrueStrategy
         alwaysFalseStrategy 100 (set_current_score initial_heap 16 42)
         [] [] [3; 4; 1; 5]
       = Ok ([], [3; 4; 1], [5])
    /\ current_score (h' 16%nat) = 42.
Proof.
  eexists. split; [ reflexivity | ]. split; [ simpl; auto | ].
  destruct (busted_turn_banks_nothing (R := scripted_source) 10
              alwaysTrueStrategy alwaysFalseStrategy 100
              (set_current_score initial_heap 16 42) _ [3; 4; 1; 5] [5]
              [3; 4; 1] eq_refl) as (Hloop & Hscore & _);
    [ simpl; auto | ].
  split; [ exact Hloop | exact Hscore ].
Defined.

(** A game to 10 points: "untilReach5" wins with 13 points against the 3
    points of "alwaysFalse", and the margin is 97. *)
Lemma margin_is_100_minus_loser_score_witness :
  exists h' : heap,
    runSimulation (R := scripted_source) 20 untilReach5 alwaysFalseStrategy
      10 initial_heap [2; 3; 5; 6; 1; 4]
    = Ok (("untilReach5"%string, 97), h', [1; 4])
    /\ current_score (h' (id (untilReach5 (rng := scripted)))) = 13
    /\ current_score (h' (id (alwaysFalseStrategy (rng := scripted)))) = 3
    /\ 97 = 100 - current_score (h' (id (alwaysFalseStrategy (rng := scripted)))).
Proof.
  eexists. split; [ reflexivity | ].
  split; [ reflexivity | ]. split; [ reflexivity | ].
  destruct (margin_is_100_minus_loser_score (R := scripted_source) 20
              untilReach5 alwaysFalseStrategy 10 initial_heap _
              [2; 3; 5; 6; 1; 4] [1; 4] "untilReach5"%string 97 eq_refl)
    as [(_ & _ & Hmargin & _) | (Hname & _)];
    [ exact Hmargin | discriminate Hname ].
Defined.

Lemma winner_overshoot_at_most_5_witness :
  in_range (R := scripted_source)
  /\ 1 <= 10
  /\ exists h' : heap,
       runSimulation (R := scripted_source) 20 untilReach5 alwaysFalseStrategy
         10 initial_heap [2; 3; 5; 6; 1; 4]
       = Ok (("untilReach5"%string, 97), h', [1; 4])
       /\ 10 <= current_score (h' (id (untilReach5 (rng := scripted))))
          <= 10 + 5.
Proof.
  split; [ exact scripted_in_range | ]. split; [ lia | ].
  eexists. split; [ reflexivity | ].
  destruct (winner_overshoot_at_most_5 (R := scripted_source)
              scripted_in_range 20 untilReach5 alwaysFalseStrategy 10
              initial_heap _ [2; 3; 5; 6; 1; 4] [1; 4] "untilReach5"%string 97
              ltac:(lia) eq_refl)
    as [(_ & Hbound) | (Hname & _)];
    [ exact Hbound | discriminate Hname ].
Defined.










(** Two games between "untilRoll6" and "untilRoll56": no IndexError. *)
Lemma decisions_only_after_a_roll_witness :
  index_error_needs_no_roll (untilRoll6 (rng := scripted))
  /\ index_error_needs_no_roll (untilRoll56 (rng := scripted))
  /\ runSimulation (R := scripted_source) 20 untilRoll6 untilRoll56 10
       initial_heap [3; 6; 5; 4; 4; 6; 2; 6]
     <> Raise IndexError.
Proof.
  pose proof (decisions_only_after_a_roll (R := scripted_source) 20
                untilRoll6 untilRoll56 10 initial_heap [3; 6; 5; 4; 4; 6; 2; 6])
    as (_ & Hengine & HuntilRoll).
  split; [ apply HuntilRoll | ]. split; [ apply HuntilRoll | ].
  apply Hengine; apply HuntilRoll.
Defined.

(** ** The batch runner *)

(** Two games to 10 points, both won by "untilReach5". *)
Lemma batch_win_counts_and_margins_witness :
  exists h' : heap,
    runSimulationBlock (R := scripted_source) (F := binary64) 20 untilReach5
      alwaysFalseStrategy 10 2 initial_heap [2; 3; 5; 6; 4; 6; 6; 1; 5; 6]
    = Ok ({| settings := {| game_count := 2; gs_winning_score := 10;
                            strategy_1 := "untilReach5";
                            strategy_2 := "alwaysFalse" |};
             win_count := (2, 0);
             win_margins := ([97; 94], [-97; -94]);
             average_margins := (95.5%float, (-95.5)%float) |},
          h', [1; 5; 6])
    /\ 2 + 0 = 2
    /\ Z.of_nat (List.length [97; 94]) = 2
    /\ Z.of_nat (List.length [-97; -94]) = 2.
Proof.
  eexists. split; [ reflexivity | ].
  destruct (batch_win_counts_and_margins (R := scripted_source)
              (F := binary64) 20 untilReach5 alwaysFalseStrategy 10 2
              initial_heap _ [2; 3; 5; 6; 4; 6; 6; 1; 5; 6] [1; 5; 6] _ eq_refl)
    as (_ & Hwins & Hfirst & Hsecond & _).
  split; [ exact Hwins | ]. split; [ exact Hfirst | exact Hsecond ].
Defined.

(** ** The aggregator *)

(** The fold of the return match into what the first match left:
    "alwaysFalse" had the average [20 / 10000] with one match, and gets
    [20 / 10000 * 1 + (-11) / 10001] with two. *)
Lemma first_strategy_average_update_witness :
  exists aggregate_results aggregate_results' current_strategy updated,
    aggregateMatches (F := binary64) [example_match] [] = Ok aggregate_results
    /\ dict_get aggregate_results "alwaysFalse" = Ok current_strategy
    /\ updateFirstStrategy aggregate_results example_return_match
       = Ok aggregate_results'
    /\ dict_get aggregate_results' "alwaysFalse" = Ok updated
    /\ average (average_margin current_strategy) = (20 / 10000)%float
    /\ match_count (average_margin current_strategy) = 1
    /\ average (average_margin updated)
       = (20 / 10000 * 1 + (-11) / 10001)%float
    /\ match_count (average_margin updated) = 1 + 1.
Proof.
  eexists. 
  destruct (first_strategy_average_update (F := binary64)
              (dict_set
                 (dict_set [] "alwaysTrue"
                    {| games_played := 10;
                       average_margin :=
                         {| average := (20 / 10000)%float; match_count := 1 |};
                       win_loss_rate :=
                         {| overall := {| wins := 7; losses := 3; rate := None |};
                            first := {| wins := 7; losses := 3; rate := None |};
                            second := {| wins := 0; losses := 0; rate := None |}
                         |} |})
                 "alwaysFalse"
                 {| games_played := 10;
                    average_margin :=
                      {| average := (20 / 10000)%float; match_count := 1 |};
                    win_loss_rate :=
                      {| overall := {| wins := 7; losses := 3; rate := None |};
                         first := {| wins := 0; losses := 0; rate := None |};
                         second := {| wins := 7; losses := 3; rate := None |}
                      |} |})
              example_return_match)
    as (aggregate_results' & updated & Hfirst & Hget & Hvalues & _).
  exists aggregate_results'. eexists. exists updated.
  split; [ reflexivity | ]. split; [ reflexivity | ].
  split; [ exact Hfirst | ]. split; [ exact Hget | ].
  split; [ reflexivity | ]. split; [ reflexivity | ]. exact Hvalues.
Defined.

(** After the first match alone "alwaysTrue" has never played second:
    [testStrategies] raises ZeroDivisionError.  After the return match no
    bucket is empty, and every rate is there. *)
Lemma winrates_or_ZeroDivisionError_witness :
  testStrategies (F := binary64) [example_match] = Raise ZeroDivisionError
  /\ exists aggregate_results,
       aggregateMatches (F := binary64) [example_match; example_return_match]
         [] = Ok aggregate_results
       /\ testStrategies (F := binary64) [example_match; example_return_match]
          = Ok (map (fun entry => (fst entry, with_winrates (snd entry)))
                  aggregate_results).
Proof.
  split.
  - destruct (winrates_or_ZeroDivisionError (F := binary64) [example_match])
      as (aggregate_results & Hfold & _ & Hempty).
    apply Hempty. injection Hfold as <-.
    apply Exists_cons_hd. intros (_ & _ & Hsecond). apply Hsecond. reflexivity.
  - destruct (winrates_or_ZeroDivisionError (F := binary64)
                [example_match; example_return_match])
      as (aggregate_results & Hfold & Hfull & _).
    exists aggregate_results. split; [ exact Hfold | ].
    apply Hfull. injection Hfold as <-.
    repeat constructor; discriminate.
Defined.

(** C2. The code at a match that "alwaysTrue" played first and won 7 times
    out of 10 against "alwaysFalse": the record of "alwaysFalse", the
    second strategy, gets the 7 wins and 3 losses of the first side in its
    overall and second buckets, and the average margin of the first side,
    [20 / 10000]; its own counts are 3 wins and 7 losses, and its own
    average margin is [-20]. *)
Theorem second_strategy_gets_first_side_counts :
  exists aggregate_results updated,
    aggregateMatch (F := binary64) [] example_match = Ok aggregate_results
    /\ dict_get aggregate_results (strategy_2 (settings example_match))
       = Ok updated
    /\ wins (overall (win_loss_rate updated)) = 7
    /\ losses (overall (win_loss_rate updated)) = 3
    /\ wins (second (win_loss_rate updated)) = 7
    /\ losses (second (win_loss_rate updated)) = 3
    /\ wins (first (win_loss_rate updated)) = 0
    /\ losses (first (win_loss_rate updated)) = 0
    /\ average (average_margin updated) = (20 / 10000)%float
    /\ snd (win_count example_match) = 3
    /\ game_count (settings example_match) - snd (win_count example_match) = 7
    /\ snd (average_margins example_match) = (-20)%float
    /\ average (average_margin updated) <> (-20 / 10000)%float.
Proof.
  eexists. eexists. split; [ reflexivity | ]. split; [ reflexivity | ].
  repeat (split; [ reflexivity | ]).
  intros H. apply (f_equal PrimFloat.get_sign) in H. vm_compute in H.
  discriminate H.
Qed.

(** ** The base strategy functions *)

(** [untilValue] answers [True] exactly when the sum of the rolls has
    reached its value. *)
Lemma untilValue_decision (rng : Type)
    (winning_score current_score opponent_score value : Z)
    (current_rolls : list Z) (g : rng) :
  untilValue winning_score current_score opponent_score current_rolls
    [PInt value] g
  = Ok (value <=? sumList current_rolls, g).
Proof.
  unfold untilValue. cbn [py_getitem List.length]. simpl bind.
  rewrite Z.geb_leb. destruct (value <=? sumList current_rolls); reflexivity.
Qed.

(** C3. The code of [untilValue] with the value 5: on the roll 2, whose
    sum is below 5, it answers [False], on which the engine ends the turn
    and banks the 2 points; once the sum has reached 5 it answers [True],
    on which the engine rolls again, here until the roll of a 1. *)
Theorem untilValue_stops_below_its_value :
  untilValue (rng := scripted) 100 0 0 [2] [PInt 5] [] = Ok (false, [])
  /\ untilValue (rng := scripted) 100 0 0 [5] [PInt 5] [] = Ok (true, [])
  /\ turnLoop (R := scripted_source) 10 untilReach5 alwaysFalseStrategy 100
       initial_heap [] [] [2; 6; 6]
     = Ok ([2], [2], [6; 6])
  /\ turnLoop (R := scripted_source) 10 untilReach5 alwaysFalseStrategy 100
       initial_heap [] [] [5; 6; 1; 3]
     = Ok ([], [5; 6; 1], [3]).
Proof. repeat split; reflexivity. Qed.

(* ================================================================== *)
(** * Further properties of the code *)

(** ** Helper functions *)

Lemma sumList_from (l : list Z) (a : Z) :
  fold_left (fun sum value => sum + value) l a = a + sumList l.
Proof.
  unfold sumList. revert a.
  induction l as [ | x l IH]; intros a; simpl; [ lia | ].
  rewrite (IH (a + x)), (IH x). lia.
Qed.

(** X1. [sumList] of a concatenation is the sum of the two sums: the
    accumulator of the loop can be split at any point. *)
Theorem sumList_concat (l1 l2 : list Z) :
  sumList (l1 ++ l2) = sumList l1 + sumList l2.
Proof.
  unfold sumList at 1. rewrite fold_left_app.
  fold (sumList l1). apply sumList_from.
Qed.

(** ** Base strategy functions *)

Lemma py_getitem_last_app {A : Type} (l : list A) (x : A) :
  py_getitem (l ++ [x]) (-1) = Ok x.
Proof.
  unfold py_getitem. rewrite length_app. cbn [List.length].
  replace (-1 <? 0) with true by reflexivity.
  replace (Z.of_nat (List.length l + 1) + -1) with (Z.of_nat (List.length l))
    by lia.
  replace (0 <=? Z.of_nat (List.length l)) with true
    by (symmetry; apply Z.leb_le; lia).
  replace (Z.of_nat (List.length l) <? Z.of_nat (List.length l + 1)) with true
    by (symmetry; apply Z.ltb_lt; lia).
  cbn [andb]. rewrite Nat2Z.id, nth_error_app2, Nat.sub_diag by lia.
  reflexivity.
Qed.

(** X2. [untilRoll] on an empty list of rolls raises IndexError, whatever
    its parameters; on a list that is not empty it reads the last roll
    only, and answers [False] exactly when that roll is in its list. *)
Theorem untilRoll_reads_last_roll (rng : Type)
    (winning_score current_score opponent_score : Z)
    (constant_parameters : list pyval) (current_rolls values : list Z)
    (roll : Z) (g : rng) :
  untilRoll winning_score current_score opponent_score [] constant_parameters g
  = Raise IndexError
  /\ untilRoll winning_score current_score opponent_score
       (current_rolls ++ [roll]) [PList values] g
     = Ok (negb (existsb (Z.eqb roll) values), g).
Proof.
  split; [ reflexivity | ].
  unfold untilRoll. rewrite py_getitem_last_app. cbn [bind].
  change (py_getitem [PList values] 0) with (Ok (PList values)). cbn [bind].
  destruct (existsb (Z.eqb roll) values); reflexivity.
Qed.

Section MoreEngine.

Context {rng : Type} {R : RandomSource rng}.

(** ** A turn *)

(** While no 1 is rolled the pending moves are the die values of the
    turn; a 1 is the last die of its turn. *)
Lemma turnLoop_rolled (fuel : nat) (me opp : strategy rng) (winning_score : Z)
    (h : heap) :
  forall current_moves g current_moves' rolled' g',
    turnLoop fuel me opp winning_score h current_moves current_moves g
    = Ok (current_moves', rolled', g') ->
    ~ In 1 current_moves ->
    (current_moves' = rolled' /\ ~ In 1 rolled')
    \/ (current_moves' = []
        /\ exists before, rolled' = before ++ [1] /\ ~ In 1 before).
Proof.
  induction fuel as [ | fuel IH]; intros moves g moves' rolled' g' Hrun Hno.
  - simpl in Hrun. destruct (_ <? _); [ discriminate | ].
    injection Hrun as <- <- _. left. auto.
  - rewrite turnLoop_S in Hrun.
    destruct (_ <? _); [ | injection Hrun as <- <- _; left; auto ].
    destruct (Z.eqb_spec (fst (rollDie g)) 1) as [Hone | Hone].
    + injection Hrun as <- <- _. right. split; [ reflexivity | ].
      exists moves. rewrite Hone. auto.
    + assert (Hno' : ~ In 1 (moves ++ [fst (rollDie g)])).
      { intros Hin. apply in_app_or in Hin. destruct Hin as [Hin | [Hin | []]];
          [ contradiction | congruence ]. }
      apply bind_Ok in Hrun. destruct Hrun as [[decision g2] [_ Hrun]].
      destruct decision; simpl in Hrun.
      * exact (IH _ _ _ _ _ Hrun Hno').
      * injection Hrun as <- <- _. left. auto.
Qed.

(** X3. A turn banks the sum of all the dice it rolled when none of them
    is a 1; otherwise the 1 is the last die of the turn and the store is
    left as it was. *)
Theorem turn_banks_its_rolls_or_nothing (fuel : nat) (me opp : strategy rng)
    (winning_score : Z) (h h' : heap) (g g' : rng) (rolled : list Z) :
  takeTurn fuel me opp winning_score h g = Ok (h', rolled, g') ->
  (~ In 1 rolled
   /\ h' = set_current_score h (id me)
             (current_score (h (id me)) + sumList rolled))
  \/ ((exists before, rolled = before ++ [1] /\ ~ In 1 before)
      /\ forall r, h' r = h r).
Proof.
  intros Hturn. apply takeTurn_Ok in Hturn.
  destruct Hturn as (moves & Hloop & ->).
  apply turnLoop_rolled in Hloop; [ | intros [] ].
  destruct Hloop as [[-> Hno] | [-> Hbust]]; [ left; auto | right ].
  split; [ exact Hbust | ].
  apply set_current_score_same. rewrite sumList_nil. lia.
Qed.

(** With a decision function that always answers [True], a turn loop ends
    on a 1 or on the winning score. *)
Lemma turnLoop_always_true (fuel : nat) (me opp : strategy rng)
    (winning_score : Z) (h : heap) :
  decision_function (strategy_decision_function me) = alwaysTrue ->
  forall current_moves rolled g current_moves' rolled' g',
    turnLoop fuel me opp winning_score h current_moves rolled g
    = Ok (current_moves', rolled', g') ->
    (current_moves' = [] /\ In 1 rolled')
    \/ winning_score <= current_score (h (id me)) + sumList current_moves'.
Proof.
  intros Hme.
  induction fuel as [ | fuel IH];
    intros moves rolled g moves' rolled' g' Hrun.
  - simpl in Hrun.
    destruct (Z.ltb_spec (current_score (h (id me)) + sumList moves)
                winning_score); [ discriminate | ].
    injection Hrun as <- _ _. right. lia.
  - rewrite turnLoop_S in Hrun.
    destruct (Z.ltb_spec (current_score (h (id me)) + sumList moves)
                winning_score);
      [ | injection Hrun as <- _ _; right; lia ].
    destruct (Z.eqb_spec (fst (rollDie g)) 1) as [Hone | _].
    + injection Hrun as <- <- _. left. split; [ reflexivity | ].
      apply in_or_app. right. left. exact Hone.
    + unfold strategy_getDecision, decisionFunction_getDecision in Hrun.
      rewrite Hme in Hrun. cbn [alwaysTrue bind negb] in Hrun.
      exact (IH _ _ _ _ _ _ Hrun).
Qed.

(** X4. A turn of a strategy whose decision function is [alwaysTrue] ends
    in one of two ways: a 1 was rolled and the score is unchanged, or the
    score has reached the winning score. *)
Theorem alwaysTrue_turn_busts_or_wins (fuel : nat) (me opp : strategy rng)
    (winning_score : Z) (h h' : heap) (g g' : rng) (rolled : list Z) :
  decision_function (strategy_decision_function me) = alwaysTrue ->
  takeTurn fuel me opp winning_score h g = Ok (h', rolled, g') ->
  (In 1 rolled /\ current_score (h' (id me)) = current_score (h (id me)))
  \/ winning_score <= current_score (h' (id me)).
Proof.
  intros Hme Hturn. apply takeTurn_Ok in Hturn.
  destruct Hturn as (moves & Hloop & ->).
  rewrite current_score_set_current_score, Nat.eqb_refl.
  apply (turnLoop_always_true _ _ _ _ _ Hme) in Hloop.
  destruct Hloop as [[-> Hin] | Hwin]; [ left | right; exact Hwin ].
  split; [ exact Hin | rewrite sumList_nil; lia ].
Qed.

(** X5. A turn of a strategy whose decision function is [alwaysFalse],
    taken below the winning score, rolls the die exactly once and banks
    that roll, or nothing when it is a 1. *)
Theorem alwaysFalse_turn_rolls_once (fuel : nat) (me opp : strategy rng)
    (winning_score : Z) (h : heap) (g : rng) :
  decision_function (strategy_decision_function me) = alwaysFalse ->
  current_score (h (id me)) < winning_score ->
  takeTurn (S fuel) me opp winning_score h g
  = Ok (set_current_score h (id me)
          (current_score (h (id me))
           + (if fst (rollDie g) =? 1 then 0 else fst (rollDie g))),
        [fst (rollDie g)], snd (rollDie g)).
Proof.
  intros Hme Hlow. unfold takeTurn. rewrite turnLoop_S, sumList_nil.
  replace (current_score (h (id me)) + 0 <? winning_score) with true
    by (symmetry; apply Z.ltb_lt; lia).
  destruct (fst (rollDie g) =? 1); [ reflexivity | ].
  unfold strategy_getDecision, decisionFunction_getDecision.
  rewrite Hme. cbn [alwaysFalse bind negb app].
  unfold sumList. cbn [fold_left]. reflexivity.
Qed.

End MoreEngine.

(** ** A game *)

Lemma winning_score_set_current_score (h : heap) (r r' : ref) (v : Z) :
  winning_score (set_current_score h r v r') = winning_score (h r').
Proof. unfold set_current_score. destruct (Nat.eqb r' r); reflexivity. Qed.

Lemma set_current_score_ext (h1 h2 : heap) (r r' : ref) (v : Z) :
  h1 r' = h2 r' -> set_current_score h1 r v r' = set_current_score h2 r v r'.
Proof.
  intros H. unfold set_current_score. rewrite H. reflexivity.
Qed.

Section MoreGame.

Context {rng : Type} {R : RandomSource rng}.

(** A turn loop reads the store at the two players only. *)
Lemma turnLoop_heap_ext (fuel : nat) (me opp : strategy rng)
    (winning_score : Z) (h1 h2 : heap) :
  h1 (id me) = h2 (id me) -> h1 (id opp) = h2 (id opp) ->
  forall current_moves rolled g,
    turnLoop fuel me opp winning_score h1 current_moves rolled g
    = turnLoop fuel me opp winning_score h2 current_moves rolled g.
Proof.
  intros Hme Hopp. induction fuel as [ | fuel IH]; intros moves rolled g.
  - simpl. rewrite Hme. reflexivity.
  - rewrite !turnLoop_S. unfold strategy_getDecision. rewrite Hme, Hopp.
    destruct (_ <? _); [ | reflexivity ].
    destruct (_ =? 1); [ reflexivity | ].
    destruct (decisionFunction_getDecision _ _ _ _ _ _)
      as [[decision g2] | e | ]; simpl; try reflexivity.
    destruct decision; simpl; [ apply IH | reflexivity ].
Qed.

Lemma takeTurn_heap_ext (fuel : nat) (me opp : strategy rng)
    (winning_score : Z) (h1 h2 : heap) (g : rng) :
  h1 (id me) = h2 (id me) -> h1 (id opp) = h2 (id opp) ->
  match takeTurn fuel me opp winning_score h1 g,
        takeTurn fuel me opp winning_score h2 g with
  | Ok (h1', rolled1, g1), Ok (h2', rolled2, g2) =>
      rolled1 = rolled2 /\ g1 = g2
      /\ forall r, h1 r = h2 r -> h1' r = h2' r
  | Raise e1, Raise e2 => e1 = e2
  | OutOfFuel, OutOfFuel => True
  | _, _ => False
  end.
Proof.
  intros Hme Hopp. unfold takeTurn.
  rewrite (turnLoop_heap_ext fuel me opp winning_score h1 h2 Hme Hopp).
  destruct (turnLoop fuel me opp winning_score h2 [] [] g)
    as [[[moves rolled] g'] | e | ]; simpl; auto.
  repeat split. intros r Hr. rewrite Hme. apply set_current_score_ext.
  exact Hr.
Qed.

Lemma gameLoop_heap_ext (fuel : nat) (strategy_1 strategy_2 : strategy rng)
    (winning_score : Z) :
  forall cycles h1 h2 g,
    h1 (id strategy_1) = h2 (id strategy_1) ->
    h1 (id strategy_2) = h2 (id strategy_2) ->
    fmap_result
      (fun x : heap * rng =>
         (fst x (id strategy_1), fst x (id strategy_2), snd x))
      (gameLoop cycles fuel strategy_1 strategy_2 winning_score h1 g)
    = fmap_result
        (fun x : heap * rng =>
           (fst x (id strategy_1), fst x (id strategy_2), snd x))
        (gameLoop cycles fuel strategy_1 strategy_2 winning_score h2 g).
Proof.
  induction cycles as [ | cycles IH]; intros h1 h2 g H1 H2; [ reflexivity | ].
  cbn [gameLoop].
  pose proof (takeTurn_heap_ext fuel strategy_1 strategy_2 winning_score
                h1 h2 g H1 H2) as Hturn1.
  destruct (takeTurn fuel strategy_1 strategy_2 winning_score h1 g)
    as [[[h1' r1] g1] | e1 | ];
    destruct (takeTurn fuel strategy_1 strategy_2 winning_score h2 g)
    as [[[h2' r2] g2] | e2 | ]; try contradiction;
    [ | subst; reflexivity | reflexivity ].
  destruct Hturn1 as (_ & <- & Hsame1). cbn [bind].
  pose proof (Hsame1 _ H1) as H1'. pose proof (Hsame1 _ H2) as H2'.
  rewrite H1'.
  destruct (_ >=? _); [ cbn [fmap_result fst snd]; congruence | ].
  pose proof (takeTurn_heap_ext fuel strategy_2 strategy_1 winning_score
                h1' h2' g1 H2' H1') as Hturn2.
  destruct (takeTurn fuel strategy_2 strategy_1 winning_score h1' g1)
    as [[[h1'' r1'] g1'] | e1 | ];
    destruct (takeTurn fuel strategy_2 strategy_1 winning_score h2' g1)
    as [[[h2'' r2'] g2'] | e2 | ]; try contradiction;
    [ | subst; reflexivity | reflexivity ].
  destruct Hturn2 as (_ & <- & Hsame2). cbn [bind].
  pose proof (Hsame2 _ H1') as H1''. pose proof (Hsame2 _ H2') as H2''.
  rewrite H2''.
  destruct (_ >=? _); [ cbn [fmap_result fst snd]; congruence | ].
  apply IH; assumption.
Qed.

Lemma game_start_players (strategy_1 strategy_2 : strategy rng)
    (winning_score : Z) (h : heap) :
  game_start strategy_1 strategy_2 winning_score h (id strategy_1)
  = {| winning_score := winning_score; current_score := 0 |}
  /\ game_start strategy_1 strategy_2 winning_score h (id strategy_2)
     = {| winning_score := winning_score; current_score := 0 |}.
Proof.
  unfold game_start, set_current_score, set_winning_score.
  rewrite !Nat.eqb_refl.
  destruct (Nat.eqb (id strategy_1) (id strategy_2)); split; reflexivity.
Qed.

(** X6. The scores are reset at the start of a game and never carried
    over: the list a game returns, the attributes of the two players after
    it and the generator do not depend on the store the game starts
    from. *)
Theorem game_does_not_depend_on_earlier_scores (fuel : nat)
    (strategy_1 strategy_2 : strategy rng) (winning_score : Z)
    (h1 h2 : heap) (g : rng) :
  fmap_result (players_view strategy_1 strategy_2)
    (runSimulation fuel strategy_1 strategy_2 winning_score h1 g)
  = fmap_result (players_view strategy_1 strategy_2)
      (runSimulation fuel strategy_1 strategy_2 winning_score h2 g).
Proof.
  unfold runSimulation.
  fold (game_start strategy_1 strategy_2 winning_score h1).
  fold (game_start strategy_1 strategy_2 winning_score h2).
  pose proof (game_start_players strategy_1 strategy_2 winning_score h1)
    as [Ha1 Ha2].
  pose proof (game_start_players strategy_1 strategy_2 winning_score h2)
    as [Hb1 Hb2].
  pose proof (gameLoop_heap_ext fuel strategy_1 strategy_2 winning_score fuel
                (game_start strategy_1 strategy_2 winning_score h1)
                (game_start strategy_1 strategy_2 winning_score h2) g
                (eq_trans Ha1 (eq_sym Hb1)) (eq_trans Ha2 (eq_sym Hb2)))
    as Hloop.
  destruct (gameLoop fuel fuel strategy_1 strategy_2 winning_score
              (game_start strategy_1 strategy_2 winning_score h1) g)
    as [[h1' g1] | e1 | ];
    destruct (gameLoop fuel fuel strategy_1 strategy_2 winning_score
                (game_start strategy_1 strategy_2 winning_score h2) g)
    as [[h2' g2] | e2 | ]; cbn [fmap_result fst snd] in Hloop;
    try discriminate Hloop;
    [ | injection Hloop as <-; reflexivity | reflexivity ].
  injection Hloop as Hp1 Hp2 <-. cbn [bind]. rewrite Hp1, Hp2.
  destruct (_ >=? _); cbn [fmap_result]; unfold players_view;
    cbn [fst snd]; rewrite Hp1, Hp2; reflexivity.
Qed.

(** The game loop writes the scores of the two players and nothing else. *)
Lemma gameLoop_frame (fuel : nat) (strategy_1 strategy_2 : strategy rng)
    (target : Z) :
  forall cycles h g h' g',
    gameLoop cycles fuel strategy_1 strategy_2 target h g = Ok (h', g') ->
    forall r,
      winning_score (h' r) = winning_score (h r)
      /\ (r <> id strategy_1 -> r <> id strategy_2 -> h' r = h r).
Proof.
  assert (Hset : forall (h : heap) r0 v r,
             winning_score (set_current_score h r0 v r)
             = winning_score (h r)
             /\ (r <> r0 -> set_current_score h r0 v r = h r)).
  { intros h r0 v r. split; [ apply winning_score_set_current_score | ].
    intros Hr. unfold set_current_score.
    destruct (Nat.eqb_spec r r0); [ contradiction | reflexivity ]. }
  induction cycles as [ | cycles IH]; intros h g h' g' H r; [ discriminate | ].
  apply gameLoop_S_Ok in H.
  destruct H as (h1 & r1 & g1 & Hturn1 & H).
  apply takeTurn_Ok in Hturn1. destruct Hturn1 as (moves1 & _ & ->).
  destruct (Hset h (id strategy_1)
              (current_score (h (id strategy_1)) + sumList moves1) r)
    as [Hw1 Hf1].
  destruct H as [(_ & -> & _) | (_ & h2 & r2 & g2 & Hturn2 & H)];
    [ split; [ exact Hw1 | intros Hr1 _; exact (Hf1 Hr1) ] | ].
  apply takeTurn_Ok in Hturn2. destruct Hturn2 as (moves2 & _ & ->).
  match type of H with
  | context [set_current_score ?hh (id strategy_2) ?v] =>
      destruct (Hset hh (id strategy_2) v r) as [Hw2 Hf2]
  end.
  destruct H as [(_ & -> & _) | (_ & H)].
  - split; [ congruence | ]. intros Hr1 Hr2.
    rewrite (Hf2 Hr2). exact (Hf1 Hr1).
  - destruct (IH _ _ _ _ H r) as [Hw Hf]. split; [ congruence | ].
    intros Hr1 Hr2. rewrite (Hf Hr1 Hr2), (Hf2 Hr2). exact (Hf1 Hr1).
Qed.

(** X7. A completed game leaves the winning score of the game in the
    attribute [winning_score] of both players, and does not touch any
    other strategy object. *)
Theorem game_writes_its_two_players_only (fuel : nat)
    (strategy_1 strategy_2 : strategy rng) (target : Z) (h h' : heap)
    (g g' : rng) (results : string * Z) :
  runSimulation fuel strategy_1 strategy_2 target h g
  = Ok (results, h', g') ->
  winning_score (h' (id strategy_1)) = target
  /\ winning_score (h' (id strategy_2)) = target
  /\ forall r, r <> id strategy_1 -> r <> id strategy_2 -> h' r = h r.
Proof.
  destruct results as [winner margin]. intros H.
  apply runSimulation_Ok in H. destruct H as [Hloop _].
  pose proof (gameLoop_frame _ _ _ _ _ _ _ _ _ Hloop) as Hframe.
  pose proof (game_start_players strategy_1 strategy_2 target h)
    as [Hs1 Hs2].
  split; [ | split ].
  - rewrite (proj1 (Hframe _)), Hs1. reflexivity.
  - rewrite (proj1 (Hframe _)), Hs2. reflexivity.
  - intros r Hr1 Hr2. rewrite (proj2 (Hframe r) Hr1 Hr2).
    unfold game_start, set_current_score, set_winning_score.
    destruct (Nat.eqb_spec r (id strategy_2)); [ contradiction | ].
    destruct (Nat.eqb_spec r (id strategy_1)); [ contradiction | ].
    reflexivity.
Qed.

(** X8. With a winning score that is not positive the first strategy wins
    at once: no die is rolled, both scores are 0 and the margin is 100. *)
Theorem nonpositive_winning_score_ends_at_once (fuel : nat)
    (strategy_1 strategy_2 : strategy rng) (winning_score : Z) (h : heap)
    (g : rng) :
  winning_score <= 0 ->
  exists h',
    runSimulation (S fuel) strategy_1 strategy_2 winning_score h g
    = Ok ((name strategy_1, 100), h', g)
    /\ current_score (h' (id strategy_1)) = 0
    /\ current_score (h' (id strategy_2)) = 0.
Proof.
  intros Hws. unfold runSimulation.
  fold (game_start strategy_1 strategy_2 winning_score h).
  pose proof (current_score_game_start strategy_1 strategy_2 winning_score h)
    as [Hs1 Hs2].
  cbn [gameLoop]. unfold takeTurn.
  rewrite turnLoop_done
    by (apply Z.ltb_ge; rewrite sumList_nil, Hs1; lia).
  cbn [bind]. rewrite sumList_nil, Hs1.
  rewrite current_score_set_current_score, Nat.eqb_refl.
  replace (0 + 0 >=? winning_score) with true
    by (symmetry; rewrite Z.geb_leb; apply Z.leb_le; lia).
  cbn [bind].
  rewrite !current_score_set_current_score, Nat.eqb_refl.
  replace (0 + 0 >=? winning_score) with true
    by (symmetry; rewrite Z.geb_leb; apply Z.leb_le; lia).
  assert (Hother : (if Nat.eqb (id strategy_2) (id strategy_1)
                    then 0 + 0
                    else current_score
                           (game_start strategy_1 strategy_2 winning_score h
                              (id strategy_2))) = 0)
    by (rewrite Hs2; destruct (Nat.eqb _ _); reflexivity).
  rewrite Hother. eexists. split; [ reflexivity | ].
  rewrite !current_score_set_current_score, Nat.eqb_refl.
  split; [ reflexivity | exact Hother ].
Qed.

End MoreGame.

(** ** Margins and exceptions, with a die that shows 1 to 6 *)

Section MoreInRange.

Context {rng : Type} {R : RandomSource rng}.
Hypothesis randint_range : in_range.

(** No score is ever negative. *)
Lemma gameLoop_nonneg (fuel : nat) (strategy_1 strategy_2 : strategy rng)
    (winning_score : Z) :
  forall cycles h g h' g',
    gameLoop cycles fuel strategy_1 strategy_2 winning_score h g = Ok (h', g') ->
    0 <= current_score (h (id strategy_1)) < winning_score ->
    0 <= current_score (h (id strategy_2)) < winning_score ->
    0 <= current_score (h' (id strategy_1))
    /\ 0 <= current_score (h' (id strategy_2)).
Proof.
  induction cycles as [ | cycles IH]; intros h g h' g' H Hs1 Hs2;
    [ discriminate | ].
  apply gameLoop_S_Ok in H.
  destruct H as (h1 & r1 & g1 & Hturn1 & H).
  apply (takeTurn_bound randint_range) in Hturn1; [ | lia ].
  destruct Hturn1 as (v1 & -> & Hv1).
  rewrite current_score_set_current_score, Nat.eqb_refl in H.
  destruct H as [(_ & -> & _) | (Hgo1 & h2 & r2 & g2 & Hturn2 & H)].
  - rewrite !current_score_set_current_score, Nat.eqb_refl.
    destruct (Nat.eqb (id strategy_2) (id strategy_1)); lia.
  - assert (Hs2' : 0 <= current_score
                          (set_current_score h (id strategy_1) v1
                             (id strategy_2)) < winning_score).
    { rewrite current_score_set_current_score.
      destruct (Nat.eqb (id strategy_2) (id strategy_1)); lia. }
    apply (takeTurn_bound randint_range) in Hturn2; [ | lia ].
    destruct Hturn2 as (v2 & -> & Hv2).
    rewrite current_score_set_current_score, Nat.eqb_refl in H.
    destruct H as [(_ & -> & _) | (Hgo2 & H)].
    + rewrite !current_score_set_current_score, !Nat.eqb_refl.
      destruct (Nat.eqb (id strategy_1) (id strategy_2)); lia.
    + apply (IH _ _ _ _ H).
      * rewrite !current_score_set_current_score, Nat.eqb_refl.
        destruct (Nat.eqb (id strategy_1) (id strategy_2)); lia.
      * rewrite current_score_set_current_score, Nat.eqb_refl. lia.
Qed.

(** X9. In a completed game between two distinct strategy objects, to a
    winning score of at least 1, the loser holds between 0 and
    [winning_score - 1] points: the margin is above [100 - winning_score]
    and at most 100. *)
Theorem margin_between_distinct_players (fuel : nat)
    (strategy_1 strategy_2 : strategy rng) (winning_score : Z) (h h' : heap)
    (g g' : rng) (winner : string) (margin : Z) :
  1 <= winning_score -> id strategy_1 <> id strategy_2 ->
  runSimulation fuel strategy_1 strategy_2 winning_score h g
  = Ok ((winner, margin), h', g') ->
  100 - winning_score < margin <= 100.
Proof.
  intros Hws Hid H. apply runSimulation_Ok in H. destruct H as [Hloop H].
  pose proof (current_score_game_start strategy_1 strategy_2 winning_score h)
    as [Hstart1 Hstart2].
  destruct (gameLoop_nonneg _ _ _ _ _ _ _ _ _ Hloop) as [Hpos1 Hpos2];
    [ lia | lia | ].
  destruct H as [(Hwin & _ & ->) | (Hlose & _ & ->)]; [ | lia ].
  pose proof (gameLoop_loser _ _ _ _ _ Hid _ _ _ _ Hloop) as Hloser.
  specialize (Hloser ltac:(lia) Hwin). lia.
Qed.

(** X10. When the same strategy object plays both sides, the two players
    share one score: the game names [strategy_1] the winner, and the
    margin is 100 minus the winner's own score, between
    [100 - winning_score - 5] and [100 - winning_score]. *)
Theorem margin_of_a_strategy_against_itself (fuel : nat)
    (strategy_1 strategy_2 : strategy rng) (winning_score : Z) (h h' : heap)
    (g g' : rng) (winner : string) (margin : Z) :
  1 <= winning_score -> id strategy_1 = id strategy_2 ->
  runSimulation fuel strategy_1 strategy_2 winning_score h g
  = Ok ((winner, margin), h', g') ->
  winner = name strategy_1
  /\ margin = 100 - current_score (h' (id strategy_1))
  /\ 100 - winning_score - 5 <= margin <= 100 - winning_score.
Proof.
  intros Hws Hid H. apply runSimulation_Ok in H. destruct H as [Hloop H].
  pose proof (current_score_game_start strategy_1 strategy_2 winning_score h)
    as [Hstart1 Hstart2].
  destruct (gameLoop_bound randint_range _ _ _ _ _ _ _ _ _ Hloop)
    as [Hb1 Hb2]; [ lia | lia | ].
  pose proof (gameLoop_exit _ _ _ _ _ _ _ _ _ Hloop) as Hexit.
  rewrite <- Hid in *.
  destruct H as [(Hwin & -> & ->) | (Hlose & _ & _)]; [ | lia ].
  repeat split; lia.
Qed.

(** *** No exception from the registered strategies *)

Lemma untilValue_answers (r : ref) (n : string) (value : Z) :
  answers_on_rolls (new_strategy (rng := rng) r n untilValue [PInt value]).
Proof.
  intros h opponent_score rolls g _.
  unfold strategy_getDecision, decisionFunction_getDecision, new_strategy.
  cbn [decision_function constant_parameters strategy_decision_function].
  rewrite untilValue_decision. eauto.
Qed.

Lemma untilRoll_answers (r : ref) (n : string) (values : list Z) :
  answers_on_rolls (new_strategy (rng := rng) r n untilRoll [PList values]).
Proof.
  intros h opponent_score rolls g Hrolls.
  destruct (py_getitem_last rolls Hrolls) as [a Ha].
  unfold strategy_getDecision, decisionFunction_getDecision, new_strategy,
    untilRoll.
  cbn [decision_function constant_parameters strategy_decision_function].
  rewrite Ha. cbn [bind].
  change (py_getitem [PList values] 0) with (Ok (PList values)). cbn [bind].
  destruct (existsb (Z.eqb a) values); eauto.
Qed.

(** [randomDecision] never raises: the index it draws is 0 or 1. *)
Lemma randomDecision_Ok
    (winning_score current_score opponent_score : Z) (current_rolls : list Z)
    (constant_parameters : list pyval) (g : rng) :
  randomDecision winning_score current_score opponent_score current_rolls
    constant_parameters g
  = Ok (fst (randint 0 1 g) =? 0, snd (randint 0 1 g)).
Proof.
  unfold randomDecision.
  pose proof (randint_range 0 1 g ltac:(lia)) as Hi.
  destruct (randint 0 1 g) as [i g']. cbn [fst snd] in *.
  assert (Hcases : i = 0 \/ i = 1) by lia.
  destruct Hcases as [-> | ->]; reflexivity.
Qed.

Lemma randomDecision_answers (r : ref) (n : string) :
  answers_on_rolls (new_strategy (rng := rng) r n randomDecision []).
Proof.
  intros h opponent_score rolls g _.
  unfold strategy_getDecision, decisionFunction_getDecision, new_strategy.
  cbn [decision_function constant_parameters strategy_decision_function].
  rewrite randomDecision_Ok. eauto.
Qed.

Lemma agroAfter_answers (r : ref) (n : string) (delta : Z) :
  answers_on_rolls (new_strategy (rng := rng) r n agroAfter [PInt delta]).
Proof.
  intros h opponent_score rolls g _.
  unfold strategy_getDecision, decisionFunction_getDecision, new_strategy,
    agroAfter.
  cbn [decision_function constant_parameters strategy_decision_function].
  change (py_getitem [PInt delta] 0) with (Ok (PInt delta)). cbn [bind].
  destruct (_ <=? delta); [ eauto | ]. rewrite randomDecision_Ok. eauto.
Qed.

Lemma beatOpponent_answers (r : ref) (n : string) :
  answers_on_rolls (new_strategy (rng := rng) r n beatOpponent []).
Proof.
  intros h opponent_score rolls g _.
  unfold strategy_getDecision, decisionFunction_getDecision, new_strategy,
    beatOpponent.
  cbn [decision_function constant_parameters strategy_decision_function].
  destruct (_ <? opponent_score); [ eauto | ].
  rewrite randomDecision_Ok. eauto.
Qed.

Lemma alwaysTrue_answers (r : ref) (n : string) :
  answers_on_rolls (new_strategy (rng := rng) r n alwaysTrue []).
Proof. intros h opponent_score rolls g _. eexists. eexists. reflexivity. Qed.

Lemma alwaysFalse_answers (r : ref) (n : string) :
  answers_on_rolls (new_strategy (rng := rng) r n alwaysFalse []).
Proof. intros h opponent_score rolls g _. eexists. eexists. reflexivity. Qed.

Lemma strategies_answer : Forall answers_on_rolls (strategies (rng := rng)).
Proof.
  unfold strategies.
  repeat (apply Forall_cons || apply Forall_nil);
    first [ apply randomDecision_answers | apply untilValue_answers
          | apply untilRoll_answers | apply agroAfter_answers
          | apply alwaysTrue_answers | apply alwaysFalse_answers
          | apply beatOpponent_answers ].
Qed.

Lemma turnLoop_no_exception (fuel : nat) (me opp : strategy rng)
    (winning_score : Z) (h : heap) (e : exn) :
  answers_on_rolls me ->
  forall current_moves rolled g,
    turnLoop fuel me opp winning_score h current_moves rolled g <> Raise e.
Proof.
  intros Hme. induction fuel as [ | fuel IH]; intros moves rolled g.
  - simpl. destruct (_ <? _); discriminate.
  - rewrite turnLoop_S.
    destruct (_ <? _); [ | discriminate ].
    destruct (_ =? 1); [ discriminate | ].
    destruct (Hme h (current_score (h (id opp)))
                (moves ++ [fst (rollDie g)]) (snd (rollDie g)))
      as (decision & g2 & ->);
      [ intros Hnil; apply app_eq_nil in Hnil; destruct Hnil; discriminate | ].
    cbn [bind]. destruct decision; simpl; [ apply IH | discriminate ].
Qed.

Lemma gameLoop_no_exception (fuel : nat) (s1 s2 : strategy rng)
    (winning_score : Z) (e : exn) :
  answers_on_rolls s1 -> answers_on_rolls s2 ->
  forall cycles h g,
    gameLoop cycles fuel s1 s2 winning_score h g <> Raise e.
Proof.
  intros H1 H2.
  assert (Hturn : forall me opp h g,
             answers_on_rolls me ->
             takeTurn fuel me opp winning_score h g <> Raise e).
  { intros me opp h g Hme H. unfold takeTurn in H. apply bind_Raise in H.
    destruct H as [H | [[[moves rolled] g'] [_ H]]]; [ | discriminate ].
    exact (turnLoop_no_exception _ _ _ _ _ _ Hme _ _ _ H). }
  induction cycles as [ | cycles IH]; intros h g; [ discriminate | ].
  simpl. intros H. apply bind_Raise in H.
  destruct H as [H | [[[h1 r1] g1] [_ H]]]; [ exact (Hturn _ _ _ _ H1 H) | ].
  destruct (_ >=? _); [ discriminate | ].
  apply bind_Raise in H.
  destruct H as [H | [[[h2 r2] g2] [_ H]]]; [ exact (Hturn _ _ _ _ H2 H) | ].
  destruct (_ >=? _); [ discriminate | exact (IH _ _ H) ].
Qed.

(** X11. A game between any two strategies of the list [strategies], the
    same one twice included, raises no exception, whatever the winning
    score and the rolls. *)
Theorem registered_strategies_raise_nothing (fuel : nat)
    (strategy_1 strategy_2 : strategy rng) (winning_score : Z) (h : heap)
    (g : rng) (e : exn) :
  In strategy_1 strategies -> In strategy_2 strategies ->
  runSimulation fuel strategy_1 strategy_2 winning_score h g <> Raise e.
Proof.
  intros Hin1 Hin2 H.
  pose proof strategies_answer as Hall. rewrite Forall_forall in Hall.
  unfold runSimulation in H. apply bind_Raise in H.
  destruct H as [H | [[h' g'] [_ H]]].
  - exact (gameLoop_no_exception _ _ _ _ _ (Hall _ Hin1) (Hall _ Hin2) _ _ _ H).
  - destruct (_ >=? _); discriminate.
Qed.

End MoreInRange.

(** ** The batch runner *)

Lemma sumList_cons (x : Z) (l : list Z) : sumList (x :: l) = x + sumList l.
Proof. unfold sumList at 1. simpl. apply sumList_from. Qed.

Lemma sumList_map_opp (l : list Z) : sumList (map Z.opp l) = - sumList l.
Proof.
  induction l as [ | x l IH]; [ reflexivity | ].
  cbn [map]. rewrite !sumList_cons, IH. lia.
Qed.

(** When every game is won under the name of the first strategy, the
    second counter stays where it is. *)
Lemma tally_all_first (strategy_1_name : string)
    (results_list : list (string * Z)) :
  Forall (fun result => fst result = strategy_1_name) results_list ->
  forall t : tally,
    strategy_2_wins (fold_left (tallyStep strategy_1_name) results_list t)
    = strategy_2_wins t.
Proof.
  induction 1 as [ | result results_list Hresult _ IH]; intros t;
    [ reflexivity | ].
  cbn [fold_left]. rewrite IH. unfold tallyStep.
  rewrite Hresult, String.eqb_refl. reflexivity.
Qed.

Section MoreBatch.

Context {rng : Type} {R : RandomSource rng}.
Context {float : Type} {F : FloatArith float}.

(** X12. [runSimulationBlock] with no game to play ([games <= 0]) raises
    ZeroDivisionError, as the average of an empty list of margins, and
    gives no batch. *)
Theorem block_without_games_raises (fuel : nat)
    (strategy_1 strategy_2 : strategy rng) (winning_score games : Z)
    (h : heap) (g : rng) :
  games <= 0 ->
  runSimulationBlock (F := F) fuel strategy_1 strategy_2 winning_score games
    h g
  = Raise ZeroDivisionError.
Proof.
  intros Hgames. unfold runSimulationBlock.
  replace (Z.to_nat games) with 0%nat by lia. reflexivity.
Qed.

(** The winner of each game bears the name of one of the two
    strategies. *)
Lemma playGames_winners (fuel : nat) (strategy_1 strategy_2 : strategy rng)
    (winning_score : Z) :
  forall n results_list h g results_list' h' g',
    playGames n fuel strategy_1 strategy_2 winning_score results_list h g
    = Ok (results_list', h', g') ->
    Forall (fun result => fst result = name strategy_1
                          \/ fst result = name strategy_2) results_list ->
    Forall (fun result => fst result = name strategy_1
                          \/ fst result = name strategy_2) results_list'.
Proof.
  induction n as [ | n IH]; intros acc h g acc' h' g' H Hacc; simpl in H.
  - injection H as <- _ _. exact Hacc.
  - apply bind_Ok in H. destruct H as [[[[winner margin] h1] g1] [Hgame H]].
    apply (IH _ _ _ _ _ _ H). apply Forall_app. split; [ exact Hacc | ].
    constructor; [ | constructor ].
    apply runSimulation_Ok in Hgame.
    destruct Hgame as [_ [(_ & -> & _) | (_ & -> & _)]]; auto.
Qed.

(** X13. The games of a batch are attributed by the name of the winner:
    when the two strategies bear the same name (a strategy against
    itself, for one), every game counts as a win of the first side, and
    the win counts are [games] and 0. *)
Theorem same_name_gives_every_win_to_the_first_side (fuel : nat)
    (strategy_1 strategy_2 : strategy rng) (winning_score games : Z)
    (h h' : heap) (g g' : rng) (b : batch float) :
  name strategy_1 = name strategy_2 ->
  runSimulationBlock fuel strategy_1 strategy_2 winning_score games h g
  = Ok (b, h', g') ->
  win_count b = (games, 0).
Proof.
  intros Hname H. unfold runSimulationBlock in H.
  apply bind_Ok in H. destruct H as [[[results_list h1] g1] [Hplay H]].
  apply bind_Ok in H. destruct H as [average_1 [Hdiv1 H]].
  apply bind_Ok in H. destruct H as [average_2 [_ H]].
  injection H as <- _ _. cbn [win_count].
  pose proof (playGames_winners _ _ _ _ _ _ _ _ _ _ _ Hplay (Forall_nil _))
    as Hwinners.
  assert (Hfirst : Forall (fun result : string * Z =>
                             fst result = name strategy_1) results_list).
  { eapply Forall_impl; [ | exact Hwinners ].
    intros result [Hr | Hr]; congruence. }
  pose proof (tally_all_first _ _ Hfirst
                {| strategy_1_wins := 0; strategy_2_wins := 0;
                   strategy_1_margins := []; strategy_2_margins := [] |})
    as Hsecond.
  destruct (tally_fold (name strategy_1) results_list
              {| strategy_1_wins := 0; strategy_2_wins := 0;
                 strategy_1_margins := []; strategy_2_margins := [] |})
    as (Hw & Hm1 & _).
  fold (tallyResults (name strategy_1) results_list) in Hw, Hm1, Hsecond.
  cbn [strategy_1_wins strategy_2_wins strategy_1_margins app] in Hw, Hm1,
    Hsecond.
  apply py_div_int_int_Ok in Hdiv1.
  pose proof (playGames_length _ _ _ _ _ _ _ _ _ _ _ Hplay) as Hlen.
  simpl in Hlen. rewrite Hm1, length_map in Hdiv1.
  rewrite Hsecond in *. f_equal. lia.
Qed.

(** X14. The two margin lists of a batch are opposite, game by game, and
    so are their sums. *)
Theorem margin_lists_are_opposite (fuel : nat)
    (strategy_1 strategy_2 : strategy rng) (winning_score games : Z)
    (h h' : heap) (g g' : rng) (b : batch float) :
  runSimulationBlock fuel strategy_1 strategy_2 winning_score games h g
  = Ok (b, h', g') ->
  snd (win_margins b) = map Z.opp (fst (win_margins b))
  /\ sumList (snd (win_margins b)) = - sumList (fst (win_margins b)).
Proof.
  intros H. unfold runSimulationBlock in H.
  apply bind_Ok in H. destruct H as [[[results_list h1] g1] [_ H]].
  apply bind_Ok in H. destruct H as [average_1 [_ H]].
  apply bind_Ok in H. destruct H as [average_2 [_ H]].
  injection H as <- _ _. cbn [win_margins fst snd].
  destruct (tally_fold (name strategy_1) results_list
              {| strategy_1_wins := 0; strategy_2_wins := 0;
                 strategy_1_margins := []; strategy_2_margins := [] |})
    as (_ & Hm1 & Hm2).
  fold (tallyResults (name strategy_1) results_list) in Hm1, Hm2.
  cbn [strategy_1_margins strategy_2_margins app] in Hm1, Hm2.
  assert (Hopp : strategy_2_margins (tallyResults (name strategy_1) results_list)
                 = map Z.opp
                     (strategy_1_margins
                        (tallyResults (name strategy_1) results_list))).
  { rewrite Hm1, Hm2, map_map. apply map_ext. intros result.
    destruct (String.eqb (fst result) (name strategy_1)); lia. }
  split; [ exact Hopp | ]. rewrite Hopp. apply sumList_map_opp.
Qed.

End MoreBatch.

(** ** The aggregator *)

Lemma counters_add_zero_r (x : counters) : counters_add x counters_zero = x.
Proof. destruct x. unfold counters_add. simpl. f_equal; lia. Qed.

Lemma counters_add_zero_l (x : counters) : counters_add counters_zero x = x.
Proof. destruct x. unfold counters_add. simpl. f_equal; lia. Qed.

Lemma counters_add_assoc (x y z : counters) :
  counters_add x (counters_add y z) = counters_add (counters_add x y) z.
Proof. unfold counters_add. simpl. f_equal; lia. Qed.

Lemma counters_add_comm (x y : counters) :
  counters_add x y = counters_add y x.
Proof. unfold counters_add. f_equal; lia. Qed.

Lemma dict_get_In {V : Type} (d : dict V) (k : string) (v : V) :
  dict_get d k = Ok v -> In (k, v) d.
Proof.
  induction d as [ | [k' v'] d IH]; simpl; [ discriminate | ].
  destruct (String.eqb_spec k' k) as [-> | _].
  - intros H. injection H as ->. left. reflexivity.
  - intros H. right. exact (IH H).
Qed.

Section MoreAggregator.

Context {float : Type} {F : FloatArith float}.

Lemma updateFirstStrategy_counters (aggregate_results : dict (aggregate float))
    (current_results : batch float) :
  exists aggregate_results',
    updateFirstStrategy aggregate_results current_results
    = Ok aggregate_results'
    /\ forall k,
         lookup_counters aggregate_results' k
         = counters_add (lookup_counters aggregate_results k)
             (if String.eqb (strategy_1 (settings current_results)) k
              then as_first current_results else counters_zero)
         /\ has_key aggregate_results' k
            = has_key aggregate_results k
              || String.eqb (strategy_1 (settings current_results)) k.
Proof.
  unfold updateFirstStrategy.
  destruct (dict_get_cases aggregate_results
              (strategy_1 (settings current_results))) as [[cur Hget] | Hget];
    rewrite Hget;
    [ rewrite py_div_float_int_share | cbn [py_div_float_int Z.eqb] ];
    cbn [bind]; eexists; (split; [ reflexivity | ]); intros k;
    unfold lookup_counters, has_key;
    (destruct (String.eqb_spec (strategy_1 (settings current_results)) k)
      as [<- | Hk];
     [ rewrite dict_get_set_same, Hget; split; [ | reflexivity ];
       unfold counters_of, counters_add, as_first, counters_zero; simpl;
       f_equal; lia
     | rewrite dict_get_set_other by congruence;
       destruct (dict_get aggregate_results k);
       rewrite counters_add_zero_r, ?orb_false_r; split; reflexivity ]).
Qed.

Lemma updateSecondStrategy_counters (aggregate_results : dict (aggregate float))
    (current_results : batch float) :
  exists aggregate_results',
    updateSecondStrategy aggregate_results current_results
    = Ok aggregate_results'
    /\ forall k,
         lookup_counters aggregate_results' k
         = counters_add (lookup_counters aggregate_results k)
             (if String.eqb (strategy_2 (settings current_results)) k
              then as_second current_results else counters_zero)
         /\ has_key aggregate_results' k
            = has_key aggregate_results k
              || String.eqb (strategy_2 (settings current_results)) k.
Proof.
  unfold updateSecondStrategy.
  destruct (dict_get_cases aggregate_results
              (strategy_2 (settings current_results))) as [[cur Hget] | Hget];
    rewrite Hget;
    [ rewrite py_div_float_int_share | cbn [py_div_float_int Z.eqb] ];
    cbn [bind]; eexists; (split; [ reflexivity | ]); intros k;
    unfold lookup_counters, has_key;
    (destruct (String.eqb_spec (strategy_2 (settings current_results)) k)
      as [<- | Hk];
     [ rewrite dict_get_set_same, Hget; split; [ | reflexivity ];
       unfold counters_of, counters_add, as_second, counters_zero; simpl;
       f_equal; lia
     | rewrite dict_get_set_other by congruence;
       destruct (dict_get aggregate_results k);
       rewrite counters_add_zero_r, ?orb_false_r; split; reflexivity ]).
Qed.

Lemma aggregateMatches_counters (match_data : list (batch float)) :
  forall aggregate_results : dict (aggregate float),
    exists aggregate_results',
      aggregateMatches match_data aggregate_results = Ok aggregate_results'
      /\ forall k,
           lookup_counters aggregate_results' k
           = counters_add (lookup_counters aggregate_results k)
               (total_counters k match_data)
           /\ has_key aggregate_results' k
              = has_key aggregate_results k
                || (plays_first k match_data || plays_second k match_data).
Proof.
  induction match_data as [ | b match_data IH]; intros aggregate_results.
  - exists aggregate_results. split; [ reflexivity | ]. intros k.
    cbn [total_counters plays_first plays_second existsb].
    rewrite counters_add_zero_r, !orb_false_r. split; reflexivity.
  - cbn [aggregateMatches]. unfold aggregateMatch.
    destruct (updateFirstStrategy_counters aggregate_results b)
      as (agg1 & -> & H1). cbn [bind].
    destruct (updateSecondStrategy_counters agg1 b) as (agg2 & -> & H2).
    cbn [bind].
    destruct (IH agg2) as (agg' & -> & H'). exists agg'.
    split; [ reflexivity | ]. intros k.
    destruct (H' k) as [Hc' Hk']. destruct (H2 k) as [Hc2 Hk2].
    destruct (H1 k) as [Hc1 Hk1].
    rewrite Hc', Hc2, Hc1, Hk', Hk2, Hk1.
    cbn [total_counters plays_first plays_second existsb].
    unfold contribution. rewrite !counters_add_assoc. split; [ reflexivity | ].
    fold (plays_first k match_data). fold (plays_second k match_data).
    destruct (has_key aggregate_results k),
      (String.eqb (strategy_1 (settings b)) k),
      (String.eqb (strategy_2 (settings b)) k),
      (plays_first k match_data), (plays_second k match_data); reflexivity.
Qed.

(** X15. The fold of the matches records, for every strategy, sums over
    the matches: each match adds its game count and one match to the
    strategy's record once for each side the strategy is on, and the wins
    [win_count[0]] and losses [game_count - win_count[0]] to the overall
    bucket and to the bucket of that side.  A strategy that was never the
    second of a match has 0 wins and 0 losses in its second bucket. *)
Theorem aggregate_counters_are_sums (match_data : list (batch float)) :
  exists aggregate_results,
    aggregateMatches match_data [] = Ok aggregate_results
    /\ forall k, lookup_counters aggregate_results k
                 = total_counters k match_data.
Proof.
  destruct (aggregateMatches_counters match_data []) as (agg & Hfold & H).
  exists agg. split; [ exact Hfold | ]. intros k.
  rewrite (proj1 (H k)). apply counters_add_zero_l.
Qed.

(** X16. The dictionary has a record for exactly the strategies that are
    named in some match, as the first or as the second: a strategy that
    played no match is absent. *)
Theorem aggregate_keys_are_the_strategies_named
    (match_data : list (batch float)) :
  exists aggregate_results,
    aggregateMatches match_data [] = Ok aggregate_results
    /\ forall k, has_key aggregate_results k
                 = plays_first k match_data || plays_second k match_data.
Proof.
  destruct (aggregateMatches_counters match_data []) as (agg & Hfold & H).
  exists agg. split; [ exact Hfold | ]. intros k.
  rewrite (proj2 (H k)). reflexivity.
Qed.

Lemma total_counters_Permutation (k : string)
    (match_data match_data' : list (batch float)) :
  Permutation match_data match_data' ->
  total_counters k match_data = total_counters k match_data'.
Proof.
  induction 1 as [ | b l l' _ IH | b1 b2 l | l1 l2 l3 _ IH1 _ IH2];
    cbn [total_counters].
  - reflexivity.
  - rewrite IH. reflexivity.
  - rewrite !counters_add_assoc.
    rewrite (counters_add_comm (contribution k b2)). reflexivity.
  - congruence.
Qed.

Lemma existsb_Permutation {A : Type} (f : A -> bool) (l l' : list A) :
  Permutation l l' -> existsb f l = existsb f l'.
Proof.
  induction 1 as [ | x l l' _ IH | x y l | l1 l2 l3 _ IH1 _ IH2];
    cbn [existsb].
  - reflexivity.
  - rewrite IH. reflexivity.
  - destruct (f x), (f y); reflexivity.
  - congruence.
Qed.

(** X17. The order in which the match files are listed does not change
    the strategies recorded nor any of their integer counters (games
    played, match count, wins and losses of the three buckets). *)
Theorem counters_do_not_depend_on_the_order
    (match_data match_data' : list (batch float)) :
  Permutation match_data match_data' ->
  exists aggregate_results aggregate_results',
    aggregateMatches match_data [] = Ok aggregate_results
    /\ aggregateMatches match_data' [] = Ok aggregate_results'
    /\ forall k,
         lookup_counters aggregate_results k
         = lookup_counters aggregate_results' k
         /\ has_key aggregate_results k = has_key aggregate_results' k.
Proof.
  intros Hperm.
  destruct (aggregateMatches_counters match_data []) as (agg & Hfold & H).
  destruct (aggregateMatches_counters match_data' []) as (agg' & Hfold' & H').
  exists agg, agg'. split; [ exact Hfold | ]. split; [ exact Hfold' | ].
  intros k. rewrite (proj1 (H k)), (proj1 (H' k)), (proj2 (H k)),
    (proj2 (H' k)).
  rewrite (total_counters_Permutation k _ _ Hperm).
  unfold plays_first, plays_second.
  rewrite (existsb_Permutation _ _ _ Hperm).
  rewrite (existsb_Permutation
             (fun b => String.eqb (strategy_2 (settings b)) k) _ _ Hperm).
  split; reflexivity.
Qed.

Lemma total_counters_balance (k : string) (match_data : list (batch float)) :
  n_overall_wins (total_counters k match_data)
  = n_first_wins (total_counters k match_data)
    + n_second_wins (total_counters k match_data)
  /\ n_overall_losses (total_counters k match_data)
     = n_first_losses (total_counters k match_data)
       + n_second_losses (total_counters k match_data)
  /\ n_games (total_counters k match_data)
     = n_overall_wins (total_counters k match_data)
       + n_overall_losses (total_counters k match_data).
Proof.
  induction match_data as [ | b match_data IH];
    [ repeat split | ].
  cbn [total_counters]. unfold contribution.
  destruct (String.eqb (strategy_1 (settings b)) k),
    (String.eqb (strategy_2 (settings b)) k);
    unfold counters_add, as_first, as_second, counters_zero; simpl; lia.
Qed.

(** X18. The fold keeps the books of every record balanced: the overall
    wins are the wins as first plus the wins as second, likewise for the
    losses, and the games played are the overall wins plus the overall
    losses. *)
Theorem aggregate_records_are_balanced (match_data : list (batch float))
    (aggregate_results : dict (aggregate float)) (k : string)
    (a : aggregate float) :
  aggregateMatches match_data [] = Ok aggregate_results ->
  dict_get aggregate_results k = Ok a ->
  wins (overall (win_loss_rate a))
  = wins (first (win_loss_rate a)) + wins (second (win_loss_rate a))
  /\ losses (overall (win_loss_rate a))
     = losses (first (win_loss_rate a)) + losses (second (win_loss_rate a))
  /\ games_played a
     = wins (overall (win_loss_rate a)) + losses (overall (win_loss_rate a)).
Proof.
  intros Hfold Hget.
  destruct (aggregateMatches_counters match_data []) as (agg & Hfold' & H).
  rewrite Hfold in Hfold'. injection Hfold' as <-.
  pose proof (proj1 (H k)) as Hk. unfold lookup_counters in Hk.
  rewrite Hget in Hk. cbn [dict_get] in Hk. rewrite counters_add_zero_l in Hk.
  pose proof (total_counters_balance k match_data) as Hbalance.
  rewrite <- Hk in Hbalance. exact Hbalance.
Qed.

Lemma total_counters_never_first (k : string)
    (match_data : list (batch float)) :
  plays_first k match_data = false ->
  n_first_wins (total_counters k match_data) = 0
  /\ n_first_losses (total_counters k match_data) = 0.
Proof.
  unfold plays_first.
  induction match_data as [ | b match_data IH]; cbn [existsb total_counters];
    [ auto | ].
  intros H. apply orb_false_elim in H. destruct H as [Hb Hrest].
  destruct (IH Hrest) as [Hw Hl]. unfold contribution. rewrite Hb.
  destruct (String.eqb (strategy_2 (settings b)) k);
    unfold counters_add, as_second, counters_zero; simpl; lia.
Qed.

Lemma total_counters_never_second (k : string)
    (match_data : list (batch float)) :
  plays_second k match_data = false ->
  n_second_wins (total_counters k match_data) = 0
  /\ n_second_losses (total_counters k match_data) = 0.
Proof.
  unfold plays_second.
  induction match_data as [ | b match_data IH]; cbn [existsb total_counters];
    [ auto | ].
  intros H. apply orb_false_elim in H. destruct H as [Hb Hrest].
  destruct (IH Hrest) as [Hw Hl]. unfold contribution. rewrite Hb.
  destruct (String.eqb (strategy_1 (settings b)) k);
    unfold counters_add, as_first, counters_zero; simpl; lia.
Qed.

(** X19. [testStrategies] raises ZeroDivisionError as soon as some
    strategy named in the match files is missing on one side: it was
    never the first strategy of a match, or never the second. *)
Theorem one_sided_strategy_raises (match_data : list (batch float))
    (k : string) :
  plays_first k match_data || plays_second k match_data = true ->
  plays_first k match_data && plays_second k match_data = false ->
  testStrategies match_data = Raise ZeroDivisionError.
Proof.
  intros Hnamed Hside.
  destruct (aggregateMatches_counters match_data []) as (agg & Hfold & H).
  unfold testStrategies. rewrite Hfold. cbn [bind].
  destruct (H k) as [Hcounters Hkey].
  cbn [has_key dict_get] in Hkey. rewrite Hnamed in Hkey.
  unfold has_key in Hkey. unfold lookup_counters in Hcounters.
  destruct (dict_get agg k) as [a | e | ] eqn:Hget; try discriminate Hkey.
  cbn [dict_get] in Hcounters. rewrite counters_add_zero_l in Hcounters.
  assert (Hempty : ~ no_empty_bucket a).
  { intros (_ & Hfirst & Hsecond). unfold games_in in Hfirst, Hsecond.
    apply andb_false_elim in Hside. destruct Hside as [Hno | Hno].
    - destruct (total_counters_never_first k match_data Hno) as [Hw Hl].
      rewrite <- Hcounters in Hw, Hl. cbn [counters_of n_first_wins
        n_first_losses] in Hw, Hl. lia.
    - destruct (total_counters_never_second k match_data Hno) as [Hw Hl].
      rewrite <- Hcounters in Hw, Hl. cbn [counters_of n_second_wins
        n_second_losses] in Hw, Hl. lia. }
  destruct (addAllWinrates_cases agg) as [[Hall _] | [_ Hraise]];
    [ | exact Hraise ].
  rewrite Forall_forall in Hall.
  elim Hempty. exact (Hall (k, a) (dict_get_In _ _ _ Hget)).
Qed.

End MoreAggregator.

(** ** The further properties on runs of the model *)

(** A turn of "untilRoll6" that rolls 3 and 6, and banks 9. *)
Lemma turn_banks_its_rolls_or_nothing_witness :
  exists h' : heap,
    takeTurn (R := scripted_source) 10 untilRoll6 alwaysFalseStrategy 100
      initial_heap [3; 6; 2]
    = Ok (h', [3; 6], [2])
    /\ ((~ In 1 [3; 6]
         /\ h' = set_current_score initial_heap 10 (0 + sumList [3; 6]))
        \/ ((exists before, [3; 6] = before ++ [1] /\ ~ In 1 before)
            /\ forall r, h' r = initial_heap r)).
Proof.
  eexists. split; [ reflexivity | ].
  exact (turn_banks_its_rolls_or_nothing (R := scripted_source) 10 untilRoll6
           alwaysFalseStrategy 100 initial_heap _ [3; 6; 2] [2] [3; 6]
           eq_refl).
Defined.

Lemma alwaysTrue_turn_busts_or_wins_witness :
  decision_function
    (strategy_decision_function (alwaysTrueStrategy (rng := scripted)))
  = alwaysTrue
  /\ exists h' : heap,
       takeTurn (R := scripted_source) 10 alwaysTrueStrategy
         alwaysFalseStrategy 100 (set_current_score initial_heap 16 42)
         [3; 4; 1; 5]
       = Ok (h', [3; 4; 1], [5])
       /\ ((In 1 [3; 4; 1] /\ current_score (h' 16%nat) = 42)
           \/ 100 <= current_score (h' 16%nat)).
Proof.
  split; [ reflexivity | ]. eexists. split; [ reflexivity | ].
  exact (alwaysTrue_turn_busts_or_wins (R := scripted_source) 10
           alwaysTrueStrategy alwaysFalseStrategy 100
           (set_current_score initial_heap 16 42) _ [3; 4; 1; 5] [5]
           [3; 4; 1] eq_refl eq_refl).
Defined.

Lemma alwaysFalse_turn_rolls_once_witness :
  decision_function
    (strategy_decision_function (alwaysFalseStrategy (rng := scripted)))
  = alwaysFalse
  /\ 0 < 100
  /\ takeTurn (R := scripted_source) 1 alwaysFalseStrategy alwaysTrueStrategy
       100 initial_heap [4; 2]
     = Ok (set_current_score initial_heap 17 (0 + 4), [4], [2]).
Proof.
  split; [ reflexivity | ]. split; [ lia | ].
  exact (alwaysFalse_turn_rolls_once (R := scripted_source) 0
           alwaysFalseStrategy alwaysTrueStrategy 100 initial_heap [4; 2]
           eq_refl ltac:(simpl; lia)).
Defined.

Lemma game_writes_its_two_players_only_witness :
  exists h' : heap,
    runSimulation (R := scripted_source) 20 untilReach5 alwaysFalseStrategy
      10 initial_heap [2; 3; 5; 6; 1; 4]
    = Ok (("untilReach5"%string, 97), h', [1; 4])
    /\ winning_score (h' 1%nat) = 10
    /\ winning_score (h' 17%nat) = 10
    /\ forall r : ref, r <> 1%nat -> r <> 17%nat -> h' r = initial_heap r.
Proof.
  eexists. split; [ reflexivity | ].
  exact (game_writes_its_two_players_only (R := scripted_source) 20
           untilReach5 alwaysFalseStrategy 10 initial_heap _
           [2; 3; 5; 6; 1; 4] [1; 4] ("untilReach5"%string, 97) eq_refl).
Defined.

Lemma nonpositive_winning_score_ends_at_once_witness :
  0 <= 0
  /\ exists h' : heap,
       runSimulation (R := scripted_source) 1 untilReach5 alwaysFalseStrategy
         0 initial_heap [5]
       = Ok (("untilReach5"%string, 100), h', [5])
       /\ current_score (h' 1%nat) = 0
       /\ current_score (h' 17%nat) = 0.
Proof.
  split; [ lia | ].
  exact (nonpositive_winning_score_ends_at_once (R := scripted_source) 0
           untilReach5 alwaysFalseStrategy 0 initial_heap [5] ltac:(lia)).
Defined.

Lemma margin_between_distinct_players_witness :
  in_range (R := scripted_source)
  /\ 1 <= 10
  /\ id (untilReach5 (rng := scripted))
     <> id (alwaysFalseStrategy (rng := scripted))
  /\ exists h' : heap,
       runSimulation (R := scripted_source) 20 untilReach5 alwaysFalseStrategy
         10 initial_heap [2; 3; 5; 6; 1; 4]
       = Ok (("untilReach5"%string, 97), h', [1; 4])
       /\ 100 - 10 < 97 <= 100.
Proof.
  split; [ exact scripted_in_range | ]. split; [ lia | ].
  split; [ discriminate | ]. eexists. split; [ reflexivity | ].
  exact (margin_between_distinct_players (R := scripted_source)
           scripted_in_range 20 untilReach5 alwaysFalseStrategy 10
           initial_heap _ [2; 3; 5; 6; 1; 4] [1; 4] "untilReach5"%string 97
           ltac:(lia) ltac:(discriminate) eq_refl).
Defined.

(** "untilReach5" against itself to 10 points: one score for both sides,
    which reaches 10, and the margin 90. *)
Lemma margin_of_a_strategy_against_itself_witness :
  in_range (R := scripted_source)
  /\ 1 <= 10
  /\ exists h' : heap,
       runSimulation (R := scripted_source) 20 untilReach5 untilReach5 10
         initial_heap [2; 3; 5; 6]
       = Ok (("untilReach5"%string, 90), h', [6])
       /\ 90 = 100 - current_score (h' 1%nat)
       /\ 100 - 10 - 5 <= 90 <= 100 - 10.
Proof.
  split; [ exact scripted_in_range | ]. split; [ lia | ].
  eexists. split; [ reflexivity | ].
  exact (proj2 (margin_of_a_strategy_against_itself (R := scripted_source)
                  scripted_in_range 20 untilReach5 untilReach5 10
                  initial_heap _ [2; 3; 5; 6] [6] "untilReach5"%string 90
                  ltac:(lia) eq_refl eq_refl)).
Defined.

Lemma registered_strategies_raise_nothing_witness :
  in_range (R := scripted_source)
  /\ In (untilRoll6 (rng := scripted)) strategies
  /\ In (randomControl (rng := scripted)) strategies
  /\ runSimulation (R := scripted_source) 20 untilRoll6 randomControl 10
       initial_heap [3; 6; 5; 0; 4; 1; 6; 2; 6]
     <> Raise TypeError.
Proof.
  split; [ exact scripted_in_range | ].
  assert (H1 : In (untilRoll6 (rng := scripted)) strategies)
    by (do 10 right; left; reflexivity).
  assert (H2 : In (randomControl (rng := scripted)) strategies)
    by (left; reflexivity).
  split; [ exact H1 | ]. split; [ exact H2 | ].
  exact (registered_strategies_raise_nothing (R := scripted_source)
           scripted_in_range 20 untilRoll6 randomControl 10 initial_heap
           [3; 6; 5; 0; 4; 1; 6; 2; 6] TypeError H1 H2).
Defined.

Lemma block_without_games_raises_witness :
  0 <= 0
  /\ runSimulationBlock (R := scripted_source) (F := binary64) 20 untilReach5
       alwaysFalseStrategy 10 0 initial_heap [2; 3]
     = Raise ZeroDivisionError.
Proof.
  split; [ lia | ].
  exact (block_without_games_raises (R := scripted_source) (F := binary64) 20
           untilReach5 alwaysFalseStrategy 10 0 initial_heap [2; 3]
           ltac:(lia)).
Defined.

Lemma same_name_gives_every_win_to_the_first_side_witness :
  name (untilReach5 (rng := scripted)) = name (untilReach5 (rng := scripted))
  /\ exists (b : batch PrimFloat.float) (h' : heap),
       runSimulationBlock (R := scripted_source) (F := binary64) 20
         untilReach5 untilReach5 10 1 initial_heap [2; 3; 5; 6]
       = Ok (b, h', [6])
       /\ win_count b = (1, 0).
Proof.
  split; [ reflexivity | ]. eexists. eexists. split; [ reflexivity | ].
  exact (same_name_gives_every_win_to_the_first_side (R := scripted_source)
           (F := binary64) 20 untilReach5 untilReach5 10 1 initial_heap _
           [2; 3; 5; 6] [6] _ eq_refl eq_refl).
Defined.

Lemma margin_lists_are_opposite_witness :
  exists (b : batch PrimFloat.float) (h' : heap),
    runSimulationBlock (R := scripted_source) (F := binary64) 20 untilReach5
      alwaysFalseStrategy 10 2 initial_heap [2; 3; 5; 6; 4; 6; 6; 1; 5; 6]
    = Ok (b, h', [1; 5; 6])
    /\ win_margins b = ([97; 94], [-97; -94])
    /\ snd (win_margins b) = map Z.opp (fst (win_margins b))
    /\ sumList (snd (win_margins b)) = - sumList (fst (win_margins b)).
Proof.
  eexists. eexists. split; [ reflexivity | ]. split; [ reflexivity | ].
  exact (margin_lists_are_opposite (R := scripted_source) (F := binary64) 20
           untilReach5 alwaysFalseStrategy 10 2 initial_heap _
           [2; 3; 5; 6; 4; 6; 6; 1; 5; 6] [1; 5; 6] _ eq_refl).
Defined.

Lemma counters_do_not_depend_on_the_order_witness :
  Permutation [example_match; example_return_match]
    [example_return_match; example_match]
  /\ exists aggregate_results aggregate_results',
       aggregateMatches (F := binary64) [example_match; example_return_match]
         [] = Ok aggregate_results
       /\ aggregateMatches (F := binary64)
            [example_return_match; example_match] []
          = Ok aggregate_results'
       /\ forall k,
            lookup_counters aggregate_results k
            = lookup_counters aggregate_results' k
            /\ has_key aggregate_results k = has_key aggregate_results' k.
Proof.
  split; [ apply perm_swap | ].
  exact (counters_do_not_depend_on_the_order (F := binary64)
           [example_match; example_return_match]
           [example_return_match; example_match] (perm_swap _ _ [])).
Defined.

Lemma aggregate_records_are_balanced_witness :
  exists aggregate_results a,
    aggregateMatches (F := binary64) [example_match; example_return_match] []
    = Ok aggregate_results
    /\ dict_get aggregate_results "alwaysTrue" = Ok a
    /\ wins (overall (win_loss_rate a)) = 11
    /\ wins (first (win_loss_rate a)) = 7
    /\ wins (second (win_loss_rate a)) = 4
    /\ wins (overall (win_loss_rate a))
       = wins (first (win_loss_rate a)) + wins (second (win_loss_rate a))
    /\ losses (overall (win_loss_rate a))
       = losses (first (win_loss_rate a)) + losses (second (win_loss_rate a))
    /\ games_played a
       = wins (overall (win_loss_rate a))
         + losses (overall (win_loss_rate a)).
Proof.
  eexists. eexists. split; [ reflexivity | ]. split; [ reflexivity | ].
  split; [ reflexivity | ]. split; [ reflexivity | ].
  split; [ reflexivity | ].
  exact (aggregate_records_are_balanced (F := binary64)
           [example_match; example_return_match] _ "alwaysTrue" _
           eq_refl eq_refl).
Defined.

Lemma one_sided_strategy_raises_witness :
  plays_first "alwaysTrue" [example_match]
  || plays_second "alwaysTrue" [example_match] = true
  /\ plays_first "alwaysTrue" [example_match]
     && plays_second "alwaysTrue" [example_match] = false
  /\ testStrategies (F := binary64) [example_match]
     = Raise ZeroDivisionError.
Proof.
  split; [ reflexivity | ]. split; [ reflexivity | ].
  exact (one_sided_strategy_raises (F := binary64) [example_match]
           "alwaysTrue" eq_refl eq_refl).
Defined.
